(** * The Medicamenta.me Python SDK: transport, resource facades and
      webhook signature verification

    A shallow embedding of [sdk/python/medicamenta/__init__.py].  Python
    functions become Rocq functions; a call that can raise returns a
    [result], and [try]/[except] is a [match] on it.  The one place where
    the module talks to the outside, [session.request], is a node of a
    small interaction type, so that the request an operation builds can be
    read off the operation itself. *)

From Stdlib Require Import NArith ZArith List String Ascii Lia.
From Corelib Require Import PrimFloat.
From stdpp Require Import base option list strings gmap pretty.
Import ListNotations.

Set Warnings "-register-all".

(** ** Python values and outcomes *)

(** The values that travel as query parameters and JSON bodies, and that
    [response.json()] hands back. *)
Inductive pyvalue : Type :=
  | PNone
  | PBool (b : bool)
  | PInt (n : Z)
  | PFloat (x : float)
  | PStr (s : string)
  | PList (l : list pyvalue)
  | PDict (d : gmap string pyvalue).

(** [v is None] *)
Definition is_None (v : pyvalue) : bool :=
  match v with PNone => true | _ => false end.

(** An [Optional[str]] argument as a value. *)
Definition of_optional (o : option string) : pyvalue :=
  match o with Some s => PStr s | None => PNone end.

(** The text of an f-string [f'{prefix}{v}'].  A [str] is spliced in as it
    is, so the text is known; any other value goes through [str()], whose
    output is kept symbolic. *)
Inductive text : Type :=
  | Text (s : string)
  | Formatted (prefix : string) (v : pyvalue).

Definition fstring (prefix : string) (v : pyvalue) : text :=
  match v with
  | PStr s => Text (prefix +:+ s)
  | _ => Formatted prefix v
  end.

(** The exception classes that occur.  [UnicodeEncodeError] is a subclass of
    [ValueError]; [JSONDecodeError] is the one of [requests.exceptions], a
    subclass of [RequestException] (requests >= 2.27; setup.py asks for
    2.31).  [HTTPError] never leaves [_request] and has no constructor. *)
Inductive exn : Type :=
  | IndexError
  | ValueError (msg : string)
  | UnicodeEncodeError
  | TypeError
  | AttributeError
  | JSONDecodeError (msg : string)
  | RequestException (msg : string)
  | MedicamentaError (msg : text).

Inductive result (A : Type) : Type :=
  | Returns (a : A)
  | Raises (e : exn).
Arguments Returns {A} a.
Arguments Raises {A} e.

#[global] Instance result_ret : MRet result := fun _ a => Returns a.
#[global] Instance result_bind : MBind result := fun _ _ f r =>
  match r with
  | Returns a => f a
  | Raises e => Raises e
  end.

(** [l[i]] on a Python list: [IndexError] past the end. *)
Definition index {A : Type} (l : list A) (i : nat) : result A :=
  match l !! i with
  | Some x => Returns x
  | None => Raises IndexError
  end.

(** ** Strings of the verifier

    [verify_webhook_signature] looks inside its strings ([split], [encode],
    the ASCII test of [compare_digest]), so there a [str] is the list of its
    code points, and [bytes] is a list of numbers below 256. *)

Definition pystr : Type := list N.
Definition pybytes : Type := list N.

(** An ASCII literal of the source as a [str]. *)
Definition lit (s : string) : pystr :=
  map N_of_ascii (list_ascii_of_string s).

Module Str.
Local Open Scope N_scope.

(** [s.split(sep)] for a one-character separator: one more part than there
    are separators, empty parts kept; [''.split(',')] is [['']]. *)
Fixpoint split (sep : N) (s : pystr) : list pystr :=
  match s with
  | [] => [[]]
  | c :: s' =>
      if c =? sep then [] :: split sep s'
      else match split sep s' with
           | p :: ps => (c :: p) :: ps
           | [] => [[c]]
           end
  end.

(** The UTF-8 bytes of one code point; a surrogate has none. Code points
    stop at 0x10FFFF: no [str] holds a larger one. *)
Definition encode_char (c : N) : option pybytes :=
  if c <? 0x80 then Some [c]
  else if c <? 0x800 then Some [0xC0 + c / 64; 0x80 + c mod 64]
  else if (0xD800 <=? c) && (c <? 0xE000) then None
  else if c <? 0x10000 then
    Some [0xE0 + c / 4096; 0x80 + (c / 64) mod 64; 0x80 + c mod 64]
  else if c <? 0x110000 then
    Some [0xF0 + c / 262144; 0x80 + (c / 4096) mod 64;
          0x80 + (c / 64) mod 64; 0x80 + c mod 64]
  else None.

(** [s.encode()]: UTF-8, strict. *)
Fixpoint encode (s : pystr) : result pybytes :=
  match s with
  | [] => Returns []
  | c :: s' =>
      match encode_char c with
      | None => Raises UnicodeEncodeError
      | Some bs => rest ← encode s'; mret (bs ++ rest)
      end
  end.

(** [s.isascii()] *)
Definition isascii (s : pystr) : bool := forallb (fun c => c <? 128) s.

End Str.

(** ** hashlib.sha256 and hmac (FIPS 180-4, RFC 2104) *)

Module Sha256.
Local Open Scope N_scope.

Definition add32 (x y : N) : N := (x + y) mod 2 ^ 32.
Definition rotr (n x : N) : N :=
  N.lor (N.shiftr x n) (N.shiftl x (32 - n) mod 2 ^ 32).
Definition not32 (x : N) : N := N.lxor x 0xffffffff.

Definition Ch (x y z : N) : N := N.lxor (N.land x y) (N.land (not32 x) z).
Definition Maj (x y z : N) : N :=
  N.lxor (N.lxor (N.land x y) (N.land x z)) (N.land y z).
Definition Sigma0 (x : N) : N :=
  N.lxor (N.lxor (rotr 2 x) (rotr 13 x)) (rotr 22 x).
Definition Sigma1 (x : N) : N :=
  N.lxor (N.lxor (rotr 6 x) (rotr 11 x)) (rotr 25 x).
Definition sigma0 (x : N) : N :=
  N.lxor (N.lxor (rotr 7 x) (rotr 18 x)) (N.shiftr x 3).
Definition sigma1 (x : N) : N :=
  N.lxor (N.lxor (rotr 17 x) (rotr 19 x)) (N.shiftr x 10).

(** The primes below [bound], in order. *)
Definition primes_below (bound : nat) : list N :=
  let is_prime (n : nat) :=
    forallb (fun d => negb (Nat.eqb (n mod d) 0)) (seq 2 (n - 2)) in
  map N.of_nat (filter (fun n => is_prime n) (seq 2 (bound - 2))).

(** The largest [r] below [2 ^ bits] with [r ^ 3 <= x]. *)
Fixpoint cube_root (bits : nat) (x r : N) : N :=
  match bits with
  | O => r
  | S b =>
      let r' := r + 2 ^ N.of_nat b in
      cube_root b x (if r' ^ 3 <=? x then r' else r)
  end.

(** The round constants: the first thirty-two bits of the fractional parts
    of the cube roots of the first sixty-four primes (FIPS 180-4, 4.2.2). *)
Definition K : list N :=
  Eval vm_compute in
    map (fun p => cube_root 36 (p * 2 ^ 96) 0 mod 2 ^ 32) (primes_below 312).

(** The initial hash value: the same of the square roots of the first eight
    primes (FIPS 180-4, 5.3.3). *)
Definition H0 : list N :=
  Eval vm_compute in
    map (fun p => N.sqrt (p * 2 ^ 64) mod 2 ^ 32) (primes_below 20).

(** The [n] low bytes of [x], most significant first. *)
Fixpoint be_bytes (n : nat) (x : N) : pybytes :=
  match n with
  | O => []
  | S n' => be_bytes n' (x / 256) ++ [x mod 256]
  end.

Definition be_word (bs : pybytes) : N :=
  fold_left (fun acc b => acc * 256 + b) bs 0.

(** The message, a one bit, zeros up to 56 modulo 64, the bit length on
    eight bytes. *)
Definition pad (msg : pybytes) : pybytes :=
  let len := N.of_nat (length msg) in
  let zeros := (64 - (len + 9) mod 64) mod 64 in
  msg ++ [0x80] ++ repeat 0 (N.to_nat zeros) ++ be_bytes 8 (8 * len).

(** [k] consecutive chunks of [size] elements. *)
Fixpoint chunks {A : Type} (size k : nat) (l : list A) : list (list A) :=
  match k with
  | O => []
  | S k' => take size l :: chunks size k' (drop size l)
  end.

(** The message schedule, latest word first: [extend n] adds [n] words. *)
Fixpoint extend (n : nat) (ws : list N) : list N :=
  match n with
  | O => ws
  | S n' =>
      let w := add32 (add32 (sigma1 (nth 1 ws 0)) (nth 6 ws 0))
                     (add32 (sigma0 (nth 14 ws 0)) (nth 15 ws 0)) in
      extend n' (w :: ws)
  end.

Definition schedule (block : pybytes) : list N :=
  rev (extend 48 (rev (map be_word (chunks 4 16 block)))).

Definition round (st : list N) (kw : N * N) : list N :=
  match st with
  | [a; b; c; d; e; f; g; h] =>
      let t1 := add32 (add32 (add32 h (Sigma1 e)) (add32 (Ch e f g) kw.1)) kw.2 in
      let t2 := add32 (Sigma0 a) (Maj a b c) in
      [add32 t1 t2; a; b; c; add32 d t1; e; f; g]
  | _ => st
  end.

Definition compress (h : list N) (block : pybytes) : list N :=
  zip_with add32 h (fold_left round (zip K (schedule block)) h).

Definition digest (msg : pybytes) : pybytes :=
  let p := pad msg in
  let h := fold_left compress (chunks 64 (length p / 64) p) H0 in
  concat (map (be_bytes 4) h).

End Sha256.

Module Hmac.
Local Open Scope N_scope.

Definition block_size : nat := 64.

(** [hmac.new(key, msg, hashlib.sha256).digest()] *)
Definition digest (key msg : pybytes) : pybytes :=
  let key := if Nat.ltb block_size (length key) then Sha256.digest key else key in
  let key := key ++ repeat 0 (block_size - length key) in
  let inner := Sha256.digest (map (N.lxor 0x36) key ++ msg) in
  Sha256.digest (map (N.lxor 0x5c) key ++ inner).

Definition hex_digit (d : N) : N := if d <? 10 then 48 + d else 87 + d.

(** [.hexdigest()]: two lowercase hexadecimal digits per byte, as a [str]. *)
Definition hexdigest (key msg : pybytes) : pystr :=
  flat_map (fun b => [hex_digit (b / 16); hex_digit (b mod 16)]) (digest key msg).

(** [hmac.compare_digest(a, b)] on two [str]: a [TypeError] unless both are
    ASCII, otherwise their equality. *)
Definition compare_digest (a b : pystr) : result bool :=
  if Str.isascii a && Str.isascii b then Returns (bool_decide (a = b))
  else Raises TypeError.

End Hmac.

(** ** verify_webhook_signature *)

Definition comma : N := 44%N.
Definition equals : N := 61%N.
Definition dot : N := 46%N.

(** The body of the [try]. *)
Definition verify_try (payload signature secret : pystr) : result bool :=
  let parts := Str.split comma signature in
  p0 ← index parts 0;
  timestamp ← index (Str.split equals p0) 1;
  p1 ← index parts 1;
  received_hash ← index (Str.split equals p1) 1;
  let message := timestamp ++ [dot] ++ payload in
  key ← Str.encode secret;
  msg ← Str.encode message;
  let expected_hash := Hmac.hexdigest key msg in
  Hmac.compare_digest received_hash expected_hash.

(** [except (IndexError, ValueError): return False] *)
Definition verify_webhook_signature
    (payload signature secret : pystr) : result bool :=
  match verify_try payload signature secret with
  | Raises IndexError | Raises (ValueError _) | Raises UnicodeEncodeError =>
      Returns false
  | r => r
  end.

(** ** The transport: MedicamentaClient *)

(** A [Dict[str, Any]]. *)
Abbreviation dict := (gmap string pyvalue).

(** What [session.request] is called with, and the session's headers that
    go out with it. *)
Record request : Type := {
  req_method : string;
  req_url : string;
  req_params : option dict;
  req_json : option dict;
  req_headers : gmap string string;
  req_timeout : Z
}.

(** What the transport reads of a [requests.Response]; [json_result] is the
    outcome of [response.json()] on [content]. *)
Record response : Type := {
  status_code : Z;
  reason : string;
  url : string;
  content : string;
  json_result : result pyvalue
}.

(** A computation that may call [session.request]: the request it sends and
    what it does with the library's answer (a response, or an exception of
    the library). *)
Inductive io (A : Type) : Type :=
  | Ret (r : result A)
  | SessionRequest (req : request) (k : result response -> io A).
Arguments Ret {A} r.
Arguments SessionRequest {A} req k.

Fixpoint io_bind {A B : Type} (f : A -> io B) (m : io A) : io B :=
  match m with
  | Ret (Returns a) => f a
  | Ret (Raises e) => Ret (Raises e)
  | SessionRequest req k => SessionRequest req (fun r => io_bind f (k r))
  end.

#[global] Instance io_ret : MRet io := fun _ a => Ret (Returns a).
#[global] Instance io_mbind : MBind io := fun _ _ f m => io_bind f m.

(** Running a computation against a remote end. *)
Fixpoint run {A : Type} (net : request -> result response) (m : io A) : result A :=
  match m with
  | Ret r => r
  | SessionRequest req k => run net (k (net req))
  end.

(** The requests a computation sends against a remote end, in order. *)
Fixpoint sent {A : Type} (net : request -> result response) (m : io A) : list request :=
  match m with
  | Ret _ => []
  | SessionRequest req k => req :: sent net (k (net req))
  end.

Record MedicamentaClient : Type := {
  api_key : option string;
  access_token : option string;
  base_url : string;
  timeout : Z;
  session_headers : gmap string string
}.

(** Truth value of an [Optional[str]]: [None] and [''] are false. *)
Definition truthy (o : option string) : bool :=
  match o with
  | Some s => negb (String.eqb s "")
  | None => false
  end.

(** [s.rstrip('/')] *)
Fixpoint rstrip_slash (s : string) : string :=
  match s with
  | EmptyString => EmptyString
  | String c s' =>
      match rstrip_slash s' with
      | EmptyString => if Ascii.eqb c "/" then EmptyString else String c EmptyString
      | r => String c r
      end
  end.

Definition default_base_url : string :=
  "https://us-central1-medicamenta-app.cloudfunctions.net/api".
Definition default_timeout : Z := 30.

(** [MedicamentaClient.__init__]; a caller who leaves [base_url] or
    [timeout] out passes the two defaults above.  [session_headers] holds
    what the constructor writes into [session.headers]; the entries a fresh
    [requests.Session] starts with (User-Agent, Accept, ...) are left out,
    none of them is an authentication header. *)
Definition __init__ (api_key access_token : option string)
    (base_url : string) (timeout : Z) : result MedicamentaClient :=
  if negb (truthy api_key) && negb (truthy access_token) then
    Raises (ValueError "Either api_key or access_token must be provided")
  else
    let headers : gmap string string := ∅ in
    let headers :=
      if truthy api_key then <["X-API-Key" := default "" api_key]> headers
      else if truthy access_token then
        <["Authorization" := "Bearer " +:+ default "" access_token]> headers
      else headers in
    let headers := <["Content-Type" := "application/json"]> headers in
    Returns {| api_key := api_key; access_token := access_token;
               base_url := rstrip_slash base_url; timeout := timeout;
               session_headers := headers |}.

(** [str(e)] for the [HTTPError] of [response.raise_for_status()], which
    raises for a status from 400 to 599 and returns otherwise. *)
Definition raise_for_status (r : response) : option string :=
  let code := status_code r in
  if bool_decide (400 <= code < 500)%Z then
    Some (pretty code +:+ " Client Error: " +:+ reason r +:+ " for url: " +:+ url r)
  else if bool_decide (500 <= code < 600)%Z then
    Some (pretty code +:+ " Server Error: " +:+ reason r +:+ " for url: " +:+ url r)
  else None.

(** [v.get(key, dflt)]: only a dict has the method. *)
Definition get (v : pyvalue) (key : string) (dflt : pyvalue) : result pyvalue :=
  match v with
  | PDict d => Returns (default dflt (d !! key))
  | _ => Raises AttributeError
  end.

(** [except requests.exceptions.HTTPError as e], [str_e] being [str(e)].
    What is raised in here leaves [_request] as it is: the clauses of the
    same [try] do not apply to it. *)
Definition except_HTTPError (r : response) (str_e : string) : result pyvalue :=
  error_data ← (if bool_decide (content r ≠ "") then json_result r
                else Returns (PDict ∅));
  err ← get error_data "error" (PDict ∅);
  error_msg ← get err "message" (PStr str_e);
  Raises (MedicamentaError (fstring "API Error: " error_msg)).

(** [except requests.exceptions.RequestException as e] *)
Definition except_RequestException (e : exn) : result pyvalue :=
  match e with
  | RequestException m | JSONDecodeError m =>
      Raises (MedicamentaError (Text ("Request failed: " +:+ m)))
  | _ => Raises e
  end.

(** What [_request] does once [session.request] has answered. *)
Definition finish (answer : result response) : result pyvalue :=
  match answer with
  | Raises e => except_RequestException e
  | Returns r =>
      match raise_for_status r with
      | Some str_e => except_HTTPError r str_e
      | None =>
          match json_result r with
          | Returns v => Returns v
          | Raises e => except_RequestException e
          end
      end
  end.

Definition _request (self : MedicamentaClient) (method path : string)
    (params json : option dict) : io pyvalue :=
  let url := base_url self +:+ path in
  SessionRequest
    {| req_method := method; req_url := url; req_params := params;
       req_json := json; req_headers := session_headers self;
       req_timeout := timeout self |}
    (fun answer => Ret (finish answer)).

(** ** The resource facades *)

(** [{k: v for k, v in d.items() if v is not None}] *)
Definition drop_None (d : dict) : dict :=
  filter (fun kv : string * pyvalue => ¬ is_None kv.2) d.

Module PatientsResource.

Definition create (client : MedicamentaClient) (kwargs : dict) : io pyvalue :=
  _request client "POST" "/v1/patients" None (Some kwargs).

Definition list (client : MedicamentaClient) (limit offset : Z)
    (status search : option string) : io pyvalue :=
  let params : dict :=
    list_to_map [("limit", PInt limit); ("offset", PInt offset);
                 ("status", of_optional status); ("search", of_optional search)] in
  let params := drop_None params in
  _request client "GET" "/v1/patients" (Some params) None.

Definition get (client : MedicamentaClient) (patient_id : string) : io pyvalue :=
  _request client "GET" ("/v1/patients/" +:+ patient_id) None None.

Definition update (client : MedicamentaClient) (patient_id : string)
    (kwargs : dict) : io pyvalue :=
  _request client "PATCH" ("/v1/patients/" +:+ patient_id) None (Some kwargs).

Definition delete (client : MedicamentaClient) (patient_id : string)
    (hard : bool) : io pyvalue :=
  let params : dict :=
    {[ "hard" := PStr (if hard then "true" else "false") ]} in
  _ ← _request client "DELETE" ("/v1/patients/" +:+ patient_id) (Some params) None;
  mret PNone.

End PatientsResource.

Module MedicationsResource.

Definition create (client : MedicamentaClient) (kwargs : dict) : io pyvalue :=
  _request client "POST" "/v1/medications" None (Some kwargs).

Definition list (client : MedicamentaClient) (patient_id status : option string)
    (limit offset : Z) : io pyvalue :=
  let params : dict :=
    list_to_map [("patientId", of_optional patient_id); ("status", of_optional status);
                 ("limit", PInt limit); ("offset", PInt offset)] in
  let params := drop_None params in
  _request client "GET" "/v1/medications" (Some params) None.

Definition get (client : MedicamentaClient) (medication_id : string) : io pyvalue :=
  _request client "GET" ("/v1/medications/" +:+ medication_id) None None.

Definition update (client : MedicamentaClient) (medication_id : string)
    (kwargs : dict) : io pyvalue :=
  _request client "PATCH" ("/v1/medications/" +:+ medication_id) None (Some kwargs).

Definition delete (client : MedicamentaClient) (medication_id : string) : io pyvalue :=
  _ ← _request client "DELETE" ("/v1/medications/" +:+ medication_id) None None;
  mret PNone.

End MedicationsResource.

Module AdherenceResource.

Definition get (client : MedicamentaClient) (patient_id : string)
    (start_date end_date medication_id : option string) : io pyvalue :=
  let params : dict :=
    list_to_map [("startDate", of_optional start_date); ("endDate", of_optional end_date);
                 ("medicationId", of_optional medication_id)] in
  let params := drop_None params in
  _request client "GET" ("/v1/adherence/" +:+ patient_id) (Some params) None.

Definition history (client : MedicamentaClient) (patient_id : string)
    (limit offset : Z) (status medication_id : option string) : io pyvalue :=
  let params : dict :=
    list_to_map [("limit", PInt limit); ("offset", PInt offset);
                 ("status", of_optional status);
                 ("medicationId", of_optional medication_id)] in
  let params := drop_None params in
  _request client "GET" ("/v1/adherence/" +:+ patient_id +:+ "/history") (Some params) None.

Definition confirm (client : MedicamentaClient)
    (patient_id medication_id scheduled_time : string)
    (taken_at notes : option string) : io pyvalue :=
  let data : dict :=
    list_to_map [("patientId", PStr patient_id); ("medicationId", PStr medication_id);
                 ("scheduledTime", PStr scheduled_time);
                 ("takenAt", of_optional taken_at); ("notes", of_optional notes)] in
  let data := drop_None data in
  _request client "POST" "/v1/adherence/confirm" None (Some data).

End AdherenceResource.

Module ReportsResource.

Definition adherence (client : MedicamentaClient)
    (start_date end_date patient_id : option string) : io pyvalue :=
  let params : dict :=
    list_to_map [("startDate", of_optional start_date); ("endDate", of_optional end_date);
                 ("patientId", of_optional patient_id)] in
  let params := drop_None params in
  _request client "GET" "/v1/reports/adherence" (Some params) None.

Definition compliance (client : MedicamentaClient) : io pyvalue :=
  _request client "GET" "/v1/reports/compliance" None None.

Definition export (client : MedicamentaClient) (report_type format : string) : io pyvalue :=
  let data : dict :=
    list_to_map [("reportType", PStr report_type); ("format", PStr format)] in
  _request client "POST" "/v1/reports/export" None (Some data).

End ReportsResource.

Module WebhooksResource.

Definition create (client : MedicamentaClient) (url : string)
    (events : list string) (secret : option string) : io pyvalue :=
  let data : dict :=
    list_to_map [("url", PStr url); ("events", PList (map PStr events));
                 ("secret", of_optional secret)] in
  _request client "POST" "/v1/webhooks" None (Some data).

Definition list (client : MedicamentaClient) : io pyvalue :=
  _request client "GET" "/v1/webhooks" None None.

Definition get (client : MedicamentaClient) (webhook_id : string) : io pyvalue :=
  _request client "GET" ("/v1/webhooks/" +:+ webhook_id) None None.

Definition delete (client : MedicamentaClient) (webhook_id : string) : io pyvalue :=
  _ ← _request client "DELETE" ("/v1/webhooks/" +:+ webhook_id) None None;
  mret PNone.

Definition test (client : MedicamentaClient) (webhook_id : string) : io pyvalue :=
  _request client "POST" ("/v1/webhooks/" +:+ webhook_id +:+ "/test") None None.

End WebhooksResource.

(** Every call a caller can make on the five resources. *)
Inductive operation : Type :=
  | PatientsCreate (kwargs : dict)
  | PatientsList (limit offset : Z) (status search : option string)
  | PatientsGet (patient_id : string)
  | PatientsUpdate (patient_id : string) (kwargs : dict)
  | PatientsDelete (patient_id : string) (hard : bool)
  | MedicationsCreate (kwargs : dict)
  | MedicationsList (patient_id status : option string) (limit offset : Z)
  | MedicationsGet (medication_id : string)
  | MedicationsUpdate (medication_id : string) (kwargs : dict)
  | MedicationsDelete (medication_id : string)
  | AdherenceGet (patient_id : string) (start_date end_date medication_id : option string)
  | AdherenceHistory (patient_id : string) (limit offset : Z)
      (status medication_id : option string)
  | AdherenceConfirm (patient_id medication_id scheduled_time : string)
      (taken_at notes : option string)
  | ReportsAdherence (start_date end_date patient_id : option string)
  | ReportsCompliance
  | ReportsExport (report_type format : string)
  | WebhooksCreate (url : string) (events : list string) (secret : option string)
  | WebhooksList
  | WebhooksGet (webhook_id : string)
  | WebhooksDelete (webhook_id : string)
  | WebhooksTest (webhook_id : string).

Definition perform (client : MedicamentaClient) (op : operation) : io pyvalue :=
  match op with
  | PatientsCreate kwargs => PatientsResource.create client kwargs
  | PatientsList limit offset status search =>
      PatientsResource.list client limit offset status search
  | PatientsGet patient_id => PatientsResource.get client patient_id
  | PatientsUpdate patient_id kwargs => PatientsResource.update client patient_id kwargs
  | PatientsDelete patient_id hard => PatientsResource.delete client patient_id hard
  | MedicationsCreate kwargs => MedicationsResource.create client kwargs
  | MedicationsList patient_id status limit offset =>
      MedicationsResource.list client patient_id status limit offset
  | MedicationsGet medication_id => MedicationsResource.get client medication_id
  | MedicationsUpdate medication_id kwargs =>
      MedicationsResource.update client medication_id kwargs
  | MedicationsDelete medication_id => MedicationsResource.delete client medication_id
  | AdherenceGet patient_id start_date end_date medication_id =>
      AdherenceResource.get client patient_id start_date end_date medication_id
  | AdherenceHistory patient_id limit offset status medication_id =>
      AdherenceResource.history client patient_id limit offset status medication_id
  | AdherenceConfirm patient_id medication_id scheduled_time taken_at notes =>
      AdherenceResource.confirm client patient_id medication_id scheduled_time taken_at notes
  | ReportsAdherence start_date end_date patient_id =>
      ReportsResource.adherence client start_date end_date patient_id
  | ReportsCompliance => ReportsResource.compliance client
  | ReportsExport report_type format => ReportsResource.export client report_type format
  | WebhooksCreate url events secret => WebhooksResource.create client url events secret
  | WebhooksList => WebhooksResource.list client
  | WebhooksGet webhook_id => WebhooksResource.get client webhook_id
  | WebhooksDelete webhook_id => WebhooksResource.delete client webhook_id
  | WebhooksTest webhook_id => WebhooksResource.test client webhook_id
  end.

(** ** Vocabulary of the statements *)

(** The value the verifier reads from part [i] of a signature: what stands
    between the first and the second [=] of the part (or up to its end). *)
Definition value_of_part (i : nat) (signature : pystr) : option pystr :=
  p ← Str.split comma signature !! i; Str.split equals p !! 1.

(** The signature format as the specification words it:
    [t=<T>,v1=<hex HMAC-SHA256 of T.payload under secret>]. *)
Definition signed_form (payload signature secret : pystr) : Prop :=
  ∃ T key msg,
    Str.encode secret = Returns key ∧
    Str.encode (T ++ [dot] ++ payload) = Returns msg ∧
    signature = lit "t=" ++ T ++ lit ",v1=" ++ Hmac.hexdigest key msg.

(** A malformed signature as the specification words it: too few parts, or
    a part without [=]. *)
Definition malformed (signature : pystr) : Prop :=
  let parts := Str.split comma signature in
  (length parts < 2)%nat ∨ ∃ p, p ∈ parts ∧ equals ∉ p.

(** Malformed where the verifier looks: too few parts, or no [=] in one of
    the first two. *)
Definition malformed_head (signature : pystr) : Prop :=
  let parts := Str.split comma signature in
  (length parts < 2)%nat ∨
  ∃ i p, (i < 2)%nat ∧ parts !! i = Some p ∧ equals ∉ p.

Definition is_hex (c : N) : bool :=
  ((48 <=? c) && (c <=? 57) || (97 <=? c) && (c <=? 102))%N.

(** The double quote, for JSON texts. *)
Definition dq : string := String "034"%char EmptyString.

(** The test vector of the specification. *)
Definition payload0 : pystr :=
  lit ("{" +:+ dq +:+ "event" +:+ dq +:+ ":" +:+ dq +:+ "dose.taken" +:+ dq +:+ "}").
Definition secret0 : pystr := lit "whsec_test".
Definition digest0 : pystr :=
  lit "75dad8228c0c5155acb324cf7743f7a5aec9b16e862fade0feb87d758fdc9f97".

Definition timestamp0 : pystr := lit "1700000000".

(** The signature of the test vector, the same with other labels, and the
    same followed by a third part. *)
Definition signature0 : pystr := lit "t=1700000000,v1=" ++ digest0.
Definition signature_other_labels : pystr := lit "x=1700000000,y=" ++ digest0.
Definition signature_third_part : pystr := signature0 ++ lit ",junk".

(** The endpoint table of the specification (section 6): the HTTP method
    and the path, relative to the base URL, of every operation. *)
Definition endpoint (op : operation) : string * string :=
  match op with
  | PatientsCreate _ => ("POST", "/v1/patients")
  | PatientsList _ _ _ _ => ("GET", "/v1/patients")
  | PatientsGet id => ("GET", "/v1/patients/" +:+ id)
  | PatientsUpdate id _ => ("PATCH", "/v1/patients/" +:+ id)
  | PatientsDelete id _ => ("DELETE", "/v1/patients/" +:+ id)
  | MedicationsCreate _ => ("POST", "/v1/medications")
  | MedicationsList _ _ _ _ => ("GET", "/v1/medications")
  | MedicationsGet id => ("GET", "/v1/medications/" +:+ id)
  | MedicationsUpdate id _ => ("PATCH", "/v1/medications/" +:+ id)
  | MedicationsDelete id => ("DELETE", "/v1/medications/" +:+ id)
  | AdherenceGet patientId _ _ _ => ("GET", "/v1/adherence/" +:+ patientId)
  | AdherenceHistory patientId _ _ _ _ =>
      ("GET", "/v1/adherence/" +:+ patientId +:+ "/history")
  | AdherenceConfirm _ _ _ _ _ => ("POST", "/v1/adherence/confirm")
  | ReportsAdherence _ _ _ => ("GET", "/v1/reports/adherence")
  | ReportsCompliance => ("GET", "/v1/reports/compliance")
  | ReportsExport _ _ => ("POST", "/v1/reports/export")
  | WebhooksCreate _ _ _ => ("POST", "/v1/webhooks")
  | WebhooksList => ("GET", "/v1/webhooks")
  | WebhooksGet id => ("GET", "/v1/webhooks/" +:+ id)
  | WebhooksDelete id => ("DELETE", "/v1/webhooks/" +:+ id)
  | WebhooksTest id => ("POST", "/v1/webhooks/" +:+ id +:+ "/test")
  end.

(** The operations that return [None] whatever the response holds. *)
Definition returns_None (op : operation) : bool :=
  match op with
  | PatientsDelete _ _ | MedicationsDelete _ | WebhooksDelete _ => true
  | _ => false
  end.

(** The header an authenticated client sends, by name. *)
Definition has_header (c : MedicamentaClient) (name : string) : bool :=
  bool_decide (is_Some (session_headers c !! name)).

(** A remote end that answers every request with the same status line and
    body; [decoded] is what [response.json()] gives for the body. *)
Definition answer (status : Z) (reason content : string)
    (decoded : result pyvalue) : request -> result response :=
  fun req =>
    Returns {| status_code := status; reason := reason; url := req_url req;
               content := content; json_result := decoded |}.

(** A client built with an API key. *)
Definition client0 : MedicamentaClient :=
  {| api_key := Some "sk_test"; access_token := None;
     base_url := default_base_url; timeout := default_timeout;
     session_headers :=
       <["Content-Type" := "application/json"]> {["X-API-Key" := "sk_test"]} |}.

(** The body [{"error":{"message":"Patient not found"}}] and its decoding. *)
Definition not_found_body : string :=
  "{" +:+ dq +:+ "error" +:+ dq +:+ ":{" +:+ dq +:+ "message" +:+ dq +:+ ":"
      +:+ dq +:+ "Patient not found" +:+ dq +:+ "}}".
Definition not_found_json : pyvalue :=
  PDict {[ "error" := PDict {[ "message" := PStr "Patient not found" ]} ]}.

(** What the JSON decoder says of a text that does not start a value. *)
Definition expecting_value : string := "Expecting value: line 1 column 1 (char 0)".

(** The keyword arguments of the module's own example, and of a medication
    created for a patient. *)
Definition patient_kwargs : dict :=
  list_to_map [("name", PStr "Joao Silva"); ("date_of_birth", PStr "1980-05-15")].
Definition medication_kwargs : dict :=
  list_to_map [("patient_id", PStr "p1"); ("name", PStr "Aspirin");
               ("dosage", PStr "100mg"); ("frequency", PStr "daily");
               ("times", PList [PStr "08:00"])].

(** The operations that hand a mapping to the transport without the
    comprehension that removes [None]: the four that take keyword
    arguments, and [Webhooks.create]. *)
Definition unfiltered (op : operation) : bool :=
  match op with
  | PatientsCreate _ | PatientsUpdate _ _
  | MedicationsCreate _ | MedicationsUpdate _ _
  | WebhooksCreate _ _ _ => true
  | _ => false
  end.

(** A value that has no [get] method: anything but a dict. *)
Definition not_a_dict (v : pyvalue) : Prop := ∀ d, v ≠ PDict d.

(** A client built with an access token and a timeout of its own. *)
Definition client1 : MedicamentaClient :=
  {| api_key := None; access_token := Some "tok";
     base_url := default_base_url; timeout := 5;
     session_headers :=
       <["Content-Type" := "application/json"]> {["Authorization" := "Bearer tok"]} |}.

(** The request of [patients.delete('p1', hard=True)] on a client. *)
Definition delete_p1 (c : MedicamentaClient) : request :=
  {| req_method := "DELETE"; req_url := base_url c +:+ "/v1/patients/p1";
     req_params := Some {[ "hard" := PStr "true" ]}; req_json := None;
     req_headers := session_headers c; req_timeout := timeout c |}.

(** ** Tactics *)

(** Reads the one request of an operation out of a hypothesis on [sent]. *)
Ltac the_request H :=
  simpl in H;
  unfold mbind, mret, io_mbind, io_ret, result_bind, result_ret in H;
  simpl in H; injection H as <- _ || injection H as <-.

(** Unfolds an operation down to its [session.request], leaving the
    mappings as the source writes them. *)
Ltac unfold_operation H :=
  unfold perform, PatientsResource.create, PatientsResource.list,
    PatientsResource.get, PatientsResource.update, PatientsResource.delete,
    MedicationsResource.create, MedicationsResource.list, MedicationsResource.get,
    MedicationsResource.update, MedicationsResource.delete,
    AdherenceResource.get, AdherenceResource.history, AdherenceResource.confirm,
    ReportsResource.adherence, ReportsResource.compliance, ReportsResource.export,
    WebhooksResource.create, WebhooksResource.list, WebhooksResource.get,
    WebhooksResource.delete, WebhooksResource.test, _request,
    mbind, mret, io_mbind, io_ret in H;
  cbn [sent io_bind] in H.

(** Settles [Hd : o = Some d] by the head of [o] alone. *)
Ltac one_mapping Hd d :=
  lazymatch type of Hd with
  | None = Some _ => discriminate Hd
  | Some _ = Some _ => apply (inj Some) in Hd; subst d
  end.

(** ** The verifier: supporting facts *)

Section Split.
Local Open Scope N_scope.

Lemma split_not_nil (sep : N) (s : pystr) : Str.split sep s ≠ [].
Proof.
  destruct s as [|c s]; simpl; [done|].
  destruct (c =? sep); [done|]. by destruct (Str.split sep s).
Qed.

(** A string without the separator is its own single part. *)
Lemma split_no_sep (sep : N) (s : pystr) : sep ∉ s → Str.split sep s = [s].
Proof.
  induction s as [|c s IH]; intros Hs; simpl; [done|].
  apply not_elem_of_cons in Hs as [Hc Hs].
  destruct (N.eqb_spec c sep) as [->|_]; [done|].
  by rewrite IH.
Qed.

(** Splitting at the first separator. *)
Lemma split_app_sep (sep : N) (a b : pystr) :
  sep ∉ a → Str.split sep (a ++ sep :: b) = a :: Str.split sep b.
Proof.
  induction a as [|c a IH]; intros Ha; simpl.
  - by rewrite N.eqb_refl.
  - apply not_elem_of_cons in Ha as [Hc Ha].
    destruct (N.eqb_spec c sep) as [->|_]; [done|].
    by rewrite IH.
Qed.

Lemma split_key_value (sep : N) (k v : pystr) :
  sep ∉ k → sep ∉ v → Str.split sep (k ++ sep :: v) = [k; v].
Proof. intros Hk Hv. by rewrite split_app_sep, split_no_sep. Qed.

(** A part without [=] has no index 1 after the second split. *)
Lemma value_of_part_None (i : nat) (signature p : pystr) :
  Str.split comma signature !! i = Some p → equals ∉ p →
  value_of_part i signature = None.
Proof.
  intros Hp Heq. unfold value_of_part. rewrite Hp. simpl.
  by rewrite split_no_sep.
Qed.

End Split.

Section Digest.
Local Open Scope N_scope.

(** The derived constants are the published ones, at both ends of each
    table. *)
Lemma sha256_constants :
  length Sha256.K = 64%nat ∧ length Sha256.H0 = 8%nat ∧
  Sha256.K !! 0%nat = Some 0x428a2f98 ∧ Sha256.K !! 63%nat = Some 0xc67178f2 ∧
  Sha256.H0 !! 0%nat = Some 0x6a09e667 ∧ Sha256.H0 !! 7%nat = Some 0x5be0cd19.
Proof. by vm_compute. Qed.

Lemma be_bytes_lt (n : nat) (x : N) : Forall (fun b => b < 256) (Sha256.be_bytes n x).
Proof.
  revert x. induction n as [|n IH]; intros x; simpl; [constructor|].
  apply Forall_app. split; [apply IH|].
  constructor; [|constructor]. by apply N.mod_lt.
Qed.

Lemma sha256_digest_lt (msg : pybytes) : Forall (fun b => b < 256) (Sha256.digest msg).
Proof.
  unfold Sha256.digest. apply Forall_concat, Forall_forall.
  intros bs (h & -> & _)%list_elem_of_fmap. apply be_bytes_lt.
Qed.

Lemma hex_digit_is_hex (d : N) : d < 16 → is_hex (Hmac.hex_digit d) = true.
Proof.
  intros Hd. unfold Hmac.hex_digit, is_hex.
  destruct (N.ltb_spec d 10).
  - replace (48 <=? 48 + d) with true by (symmetry; apply N.leb_le; lia).
    replace (48 + d <=? 57) with true by (symmetry; apply N.leb_le; lia). done.
  - replace (97 <=? 87 + d) with true by (symmetry; apply N.leb_le; lia).
    replace (87 + d <=? 102) with true by (symmetry; apply N.leb_le; lia).
    by rewrite orb_true_r.
Qed.

(** The digest text is hexadecimal digits: every character is
    one of [0-9a-f]. *)
Lemma hexdigest_is_hex (key msg : pybytes) :
  Forall (fun c => is_hex c = true) (Hmac.hexdigest key msg).
Proof.
  unfold Hmac.hexdigest, Hmac.digest.
  set (k := (_ ++ repeat 0 _)%list).
  pose proof (sha256_digest_lt
    (map (N.lxor 0x5c) k ++ Sha256.digest (map (N.lxor 0x36) k ++ msg))) as Hlt.
  induction Hlt as [|b bs Hb _ IH]; simpl; [constructor|].
  constructor; [|constructor; [|exact IH]].
  - apply hex_digit_is_hex. apply N.Div0.div_lt_upper_bound; lia.
  - apply hex_digit_is_hex. by apply N.mod_lt.
Qed.

Lemma is_hex_ascii (c : N) : is_hex c = true → (c <? 128) = true.
Proof.
  unfold is_hex. intros H. apply N.ltb_lt.
  apply orb_true_iff in H as [H|H]; apply andb_true_iff in H as [_ H];
    apply N.leb_le in H; lia.
Qed.

Lemma hexdigest_isascii (key msg : pybytes) :
  Str.isascii (Hmac.hexdigest key msg) = true.
Proof.
  unfold Str.isascii. apply forallb_forall. intros c Hc.
  apply is_hex_ascii.
  pose proof (hexdigest_is_hex key msg) as Hhex.
  rewrite Forall_forall in Hhex. apply Hhex. by apply list_elem_of_In.
Qed.

Lemma hexdigest_no_sep (key msg : pybytes) (sep : N) :
  is_hex sep = false → sep ∉ Hmac.hexdigest key msg.
Proof.
  intros Hsep Hin.
  pose proof (hexdigest_is_hex key msg) as Hhex.
  rewrite Forall_forall in Hhex. specialize (Hhex _ Hin). congruence.
Qed.

Lemma compare_digest_hexdigest (received : pystr) (key msg : pybytes) :
  Hmac.compare_digest received (Hmac.hexdigest key msg) =
  if Str.isascii received
  then Returns (bool_decide (received = Hmac.hexdigest key msg))
  else Raises TypeError.
Proof.
  unfold Hmac.compare_digest. rewrite hexdigest_isascii.
  by rewrite andb_true_r.
Qed.

End Digest.

(** The [try] body in one piece: the two values are read first, then both
    strings are encoded, then the digests are compared. *)
Lemma verify_try_unfold (payload signature secret : pystr) :
  verify_try payload signature secret =
  match value_of_part 0 signature, value_of_part 1 signature with
  | Some timestamp, Some received_hash =>
      key ← Str.encode secret;
      msg ← Str.encode (timestamp ++ [dot] ++ payload);
      Hmac.compare_digest received_hash (Hmac.hexdigest key msg)
  | _, _ => Raises IndexError
  end.
Proof.
  unfold verify_try, value_of_part, index.
  destruct (Str.split comma signature !! 0%nat) as [p0|]; simpl; [|done].
  destruct (Str.split equals p0 !! 1%nat) as [timestamp|]; simpl; [|done].
  destruct (Str.split comma signature !! 1%nat) as [p1|]; simpl; [|done].
  by destruct (Str.split equals p1 !! 1%nat) as [received|].
Qed.

(** The outcome of the verifier, case by case. *)
Lemma verify_outcome (payload signature secret : pystr) :
  verify_webhook_signature payload signature secret =
  match value_of_part 0 signature, value_of_part 1 signature with
  | Some timestamp, Some received_hash =>
      match Str.encode secret, Str.encode (timestamp ++ [dot] ++ payload) with
      | Returns key, Returns msg =>
          if Str.isascii received_hash
          then Returns (bool_decide (received_hash = Hmac.hexdigest key msg))
          else Raises TypeError
      | _, _ => Returns false
      end
  | _, _ => Returns false
  end.
Proof.
  unfold verify_webhook_signature. rewrite verify_try_unfold.
  destruct (value_of_part 0 signature) as [timestamp|]; [|done].
  destruct (value_of_part 1 signature) as [received|]; [|done].
  assert (Henc : ∀ s, (∃ bs, Str.encode s = Returns bs) ∨
                      Str.encode s = Raises UnicodeEncodeError).
  { induction s as [|c s IH]; simpl; [by left; eexists|].
    destruct (Str.encode_char c); [|by right].
    destruct IH as [[bs ->]| ->]; simpl; [left; by eexists | by right]. }
  destruct (Henc secret) as [[key ->]| ->];
    destruct (Henc (timestamp ++ [dot] ++ payload)) as [[msg ->]| ->];
    simpl; try done.
  rewrite compare_digest_hexdigest.
  by destruct (Str.isascii received).
Qed.

(** ** The verifier: the claims *)

(** C1 (as amended).  The verifier returns [True] exactly when the values it
    reads from the first two comma-separated parts (the text after the
    first [=] of each) are a timestamp [T] and the lowercase hexadecimal
    HMAC-SHA256 of [T.payload] under the secret.  A signature of the
    documented form [t=<T>,v1=<digest>], with [T] free of commas and equals
    signs, is accepted.  The empty string, a string with a single part, an
    ASCII digest with a character outside [0-9a-f], and any ASCII digest
    other than the recomputed one (wrong secret, tampered payload, tampered
    timestamp) are answered [False]. *)
Theorem verify_webhook_signature_true_iff (payload signature secret : pystr) :
  (verify_webhook_signature payload signature secret = Returns true ↔
   ∃ timestamp key msg,
     value_of_part 0 signature = Some timestamp ∧
     Str.encode secret = Returns key ∧
     Str.encode (timestamp ++ [dot] ++ payload) = Returns msg ∧
     value_of_part 1 signature = Some (Hmac.hexdigest key msg)) ∧
  (∀ T key msg,
     comma ∉ T → equals ∉ T →
     Str.encode secret = Returns key →
     Str.encode (T ++ [dot] ++ payload) = Returns msg →
     verify_webhook_signature payload
       (lit "t=" ++ T ++ lit ",v1=" ++ Hmac.hexdigest key msg) secret = Returns true) ∧
  verify_webhook_signature payload [] secret = Returns false ∧
  (comma ∉ signature →
     verify_webhook_signature payload signature secret = Returns false) ∧
  (∀ received c,
     value_of_part 1 signature = Some received →
     Str.isascii received = true → c ∈ received → is_hex c = false →
     verify_webhook_signature payload signature secret = Returns false) ∧
  (∀ timestamp received key msg,
     value_of_part 0 signature = Some timestamp →
     value_of_part 1 signature = Some received →
     Str.isascii received = true →
     Str.encode secret = Returns key →
     Str.encode (timestamp ++ [dot] ++ payload) = Returns msg →
     received ≠ Hmac.hexdigest key msg →
     verify_webhook_signature payload signature secret = Returns false).
Proof.
  split_and!.
  - split.
    { rewrite verify_outcome.
    destruct (value_of_part 0 signature) as [timestamp|]; [|done].
    destruct (value_of_part 1 signature) as [received|]; [|done].
    destruct (Str.encode secret) as [key|]; [|done].
    destruct (Str.encode (timestamp ++ [dot] ++ payload)) as [msg|] eqn:Hmsg; [|done].
    destruct (Str.isascii received); [|done].
    intros [= Heq%bool_decide_eq_true_1]. exists timestamp, key, msg.
    rewrite Heq. auto. }
    intros (timestamp & key & msg & H0 & Hkey & Hmsg & H1).
    rewrite verify_outcome, H0, H1, Hkey, Hmsg, hexdigest_isascii.
    by rewrite bool_decide_eq_true_2.
  - intros T key msg HcT HeT Hkey Hmsg.
    assert (Hc : comma ∉ Hmac.hexdigest key msg) by by apply hexdigest_no_sep.
    assert (He : equals ∉ Hmac.hexdigest key msg) by by apply hexdigest_no_sep.
    assert (Hparts : Str.split comma
              (lit "t=" ++ T ++ lit ",v1=" ++ Hmac.hexdigest key msg) =
              [lit "t=" ++ T; lit "v1=" ++ Hmac.hexdigest key msg]).
    { change (lit "t=" ++ T ++ lit ",v1=" ++ Hmac.hexdigest key msg)
        with ((lit "t=" ++ T) ++ comma :: (lit "v1=" ++ Hmac.hexdigest key msg)).
      apply split_key_value; rewrite elem_of_app; intros [H|H]; try done;
        revert H; apply (bool_decide_unpack _); by vm_compute. }
    assert (H0 : value_of_part 0
              (lit "t=" ++ T ++ lit ",v1=" ++ Hmac.hexdigest key msg) = Some T).
    { unfold value_of_part. rewrite Hparts.
      change (Str.split equals (lit "t" ++ equals :: T) !! 1%nat = Some T).
      rewrite split_key_value; [done| |done].
      apply (bool_decide_unpack _). by vm_compute. }
    assert (H1 : value_of_part 1
              (lit "t=" ++ T ++ lit ",v1=" ++ Hmac.hexdigest key msg) =
              Some (Hmac.hexdigest key msg)).
    { unfold value_of_part. rewrite Hparts.
      change (Str.split equals (lit "v1" ++ equals :: Hmac.hexdigest key msg) !! 1%nat =
              Some (Hmac.hexdigest key msg)).
      rewrite split_key_value; [done| |done].
      apply (bool_decide_unpack _). by vm_compute. }
    rewrite verify_outcome, H0, H1, Hkey, Hmsg, hexdigest_isascii.
    by rewrite bool_decide_eq_true_2.
  - rewrite verify_outcome. reflexivity.
  - intros Hc. rewrite verify_outcome.
    assert (value_of_part 1 signature = None) as ->.
    { unfold value_of_part. by rewrite split_no_sep. }
    by destruct (value_of_part 0 signature).
  - intros received c H1 Hascii Hin Hhex.
    rewrite verify_outcome, H1, Hascii.
    destruct (value_of_part 0 signature) as [timestamp|]; [|done].
    destruct (Str.encode secret) as [key|]; [|done].
    destruct (Str.encode (timestamp ++ [dot] ++ payload)) as [msg|]; [|done].
    rewrite bool_decide_eq_false_2; [done|].
    intros ->. pose proof (hexdigest_is_hex key msg) as Hall.
    rewrite Forall_forall in Hall. specialize (Hall _ Hin). congruence.
  - intros timestamp received key msg H0 H1 Hascii Hkey Hmsg Hne.
    rewrite verify_outcome, H0, H1, Hkey, Hmsg, Hascii.
    by rewrite bool_decide_eq_false_2.
Qed.

(** C1, witness: the test vector of the specification is accepted. *)
Lemma verify_test_vector :
  verify_webhook_signature payload0
    (lit "t=" ++ timestamp0 ++ lit ",v1=" ++
       Hmac.hexdigest secret0 (timestamp0 ++ [dot] ++ payload0)) secret0 = Returns true.
Proof.
  apply (proj1 (proj2 (verify_webhook_signature_true_iff payload0 [] secret0))).
  - apply (bool_decide_unpack _). by vm_compute.
  - apply (bool_decide_unpack _). by vm_compute.
  - by vm_compute.
  - by vm_compute.
Defined.

(** C1, counterexample: with the labels [x] and [y] in place of [t] and
    [v1] the signature is not of the documented form, and it is accepted;
    and a digest that holds a non-ASCII character is not answered [False],
    the comparison raises [TypeError]. *)
Lemma verify_departs_from_documented_form :
  (verify_webhook_signature payload0 signature_other_labels secret0 = Returns true ∧
   ¬ signed_form payload0 signature_other_labels secret0) ∧
  verify_webhook_signature payload0 (lit "t=1700000000,v1=" ++ [233%N]) secret0
    = Raises TypeError.
Proof.
  split; [split|]; [by vm_compute| |by vm_compute].
  intros (T & key & msg & _ & _ & H).
  injection H as H _. vm_compute in H. discriminate.
Qed.

(** C9 (as amended).  A signature with fewer than two comma-separated
    parts, or with no [=] in its first or in its second part, is answered
    [False]; nothing is raised. *)
Theorem verify_malformed_head_false (payload signature secret : pystr) :
  malformed_head signature →
  verify_webhook_signature payload signature secret = Returns false.
Proof.
  intros [Hlen | (i & p & Hi & Hp & Heq)]; rewrite verify_outcome.
  - assert (value_of_part 1 signature = None) as ->.
    { unfold value_of_part. rewrite lookup_ge_None_2; [done|lia]. }
    by destruct (value_of_part 0 signature).
  - destruct i as [|[|i]]; [| |lia].
    + by rewrite (value_of_part_None 0 signature p Hp Heq).
    + rewrite (value_of_part_None 1 signature p Hp Heq).
      by destruct (value_of_part 0 signature).
Qed.

(** C9, witness: a signature with a timestamp part only. *)
Lemma verify_single_part_false :
  verify_webhook_signature payload0 (lit "t=1700000000") secret0 = Returns false.
Proof.
  apply verify_malformed_head_false.
  left. vm_compute. lia.
Defined.

(** C9, counterexample: the third part has no [=], so the signature is
    malformed in the documented sense, and it is accepted. *)
Lemma verify_accepts_malformed_third_part :
  malformed signature_third_part ∧
  verify_webhook_signature payload0 signature_third_part secret0 = Returns true.
Proof.
  split; [|by vm_compute].
  right. exists (lit "junk"). split.
  - apply (bool_decide_unpack _). by vm_compute.
  - apply (bool_decide_unpack _). by vm_compute.
Qed.

(** ** The transport: supporting facts *)

Lemma run_request (net : request → result response) (self : MedicamentaClient)
    (method path : string) (params json : option dict) :
  ∃ req, sent net (_request self method path params json) = [req] ∧
         run net (_request self method path params json) = finish (net req) ∧
         req_method req = method ∧ req_url req = base_url self +:+ path ∧
         req_params req = params ∧ req_json req = json ∧
         req_headers req = session_headers self.
Proof. eexists. by repeat split. Qed.

(** Every operation sends one request, and its outcome is that of
    [_request], with [None] put in place of the value by the three
    [delete]s. *)
Lemma run_perform (net : request → result response) (c : MedicamentaClient)
    (op : operation) :
  ∃ req, sent net (perform c op) = [req] ∧
         req_method req = (endpoint op).1 ∧
         req_url req = base_url c +:+ (endpoint op).2 ∧
         req_headers req = session_headers c ∧
         run net (perform c op) =
           (v ← finish (net req); mret (if returns_None op then PNone else v)).
Proof.
  destruct op; simpl;
    unfold mbind, mret, io_mbind, io_ret, result_bind, result_ret; simpl.
  all: eexists; split; [apply (f_equal2 cons); [reflexivity|] |].
  all: try reflexivity.
  all: try (split_and!; try reflexivity).
  all: by destruct (finish _).
Qed.

Lemma raise_for_status_error (r : response) :
  (400 ≤ status_code r < 600)%Z → ∃ str_e, raise_for_status r = Some str_e ∧ str_e ≠ "".
Proof.
  intros H. unfold raise_for_status.
  assert (Hne : ∀ (a b : string) (c : ascii), a +:+ String c b ≠ "").
  { intros a b c. by destruct a. }
  destruct (bool_decide_reflect (400 ≤ status_code r < 500)%Z).
  - eexists. split; [done|]. apply Hne.
  - rewrite bool_decide_eq_true_2 by lia. eexists. split; [done|]. apply Hne.
Qed.

Lemma raise_for_status_ok (r : response) :
  ¬ (400 ≤ status_code r < 600)%Z → raise_for_status r = None.
Proof.
  intros H. unfold raise_for_status.
  rewrite !bool_decide_eq_false_2 by lia. done.
Qed.

(** An error status with an empty body: the message falls back on the text
    of the [HTTPError]. *)
Lemma finish_error_empty (r : response) :
  (400 ≤ status_code r < 600)%Z → content r = "" →
  ∃ str_e, str_e ≠ "" ∧ raise_for_status r = Some str_e ∧
    finish (Returns r) = Raises (MedicamentaError (Text ("API Error: " +:+ str_e))).
Proof.
  intros Hs Hc.
  destruct (raise_for_status_error r Hs) as (str_e & Hr & Hne).
  exists str_e. split_and!; [done..|].
  unfold finish. rewrite Hr. unfold except_HTTPError.
  rewrite bool_decide_eq_false_2 by (by intros []). reflexivity.
Qed.

(** An error status with a body that [response.json()] cannot decode: the
    decoder's exception is raised inside the handler and leaves as it is. *)
Lemma finish_error_undecodable (r : response) (e : exn) :
  (400 ≤ status_code r < 600)%Z → content r ≠ "" → json_result r = Raises e →
  finish (Returns r) = Raises e.
Proof.
  intros Hs Hc Hj.
  destruct (raise_for_status_error r Hs) as (str_e & Hr & _).
  unfold finish. rewrite Hr. unfold except_HTTPError.
  rewrite bool_decide_eq_true_2 by done. by rewrite Hj.
Qed.

(** An error status with a body [{"error": {"message": m}}], [m] a string. *)
Lemma finish_error_message (r : response) (d d' : dict) (m : string) :
  (400 ≤ status_code r < 600)%Z → content r ≠ "" →
  json_result r = Returns (PDict d) →
  d !! "error" = Some (PDict d') → d' !! "message" = Some (PStr m) →
  finish (Returns r) = Raises (MedicamentaError (Text ("API Error: " +:+ m))).
Proof.
  intros Hs Hc Hj He Hm.
  destruct (raise_for_status_error r Hs) as (str_e & Hr & _).
  unfold finish. rewrite Hr. unfold except_HTTPError.
  rewrite bool_decide_eq_true_2 by done. rewrite Hj. simpl.
  rewrite He. simpl. by rewrite Hm.
Qed.

(** A status outside 400..599: the decoded body, or the decoder's failure
    wrapped by the second [except] clause. *)
Lemma finish_success (r : response) :
  ¬ (400 ≤ status_code r < 600)%Z →
  finish (Returns r) =
  match json_result r with
  | Returns v => Returns v
  | Raises e => except_RequestException e
  end.
Proof. intros Hs. unfold finish. by rewrite raise_for_status_ok. Qed.

(** ** The transport: the claims *)

(** C2, at the failing input.  [create] forwards its keyword arguments as
    the JSON body under the names they were given: the module's own example
    sends [date_of_birth], and a medication created with [patient_id] sends
    [patient_id]; neither [dateOfBirth] nor [patientId] is in the body. *)
Theorem create_forwards_given_names (net : request → result response) :
  (∃ req, sent net (PatientsResource.create client0 patient_kwargs) = [req] ∧
          req_method req = "POST" ∧
          req_url req = base_url client0 +:+ "/v1/patients" ∧
          req_json req = Some patient_kwargs ∧
          patient_kwargs !! "date_of_birth" = Some (PStr "1980-05-15") ∧
          patient_kwargs !! "dateOfBirth" = None) ∧
  (∃ req, sent net (MedicationsResource.create client0 medication_kwargs) = [req] ∧
          req_method req = "POST" ∧
          req_url req = base_url client0 +:+ "/v1/medications" ∧
          req_json req = Some medication_kwargs ∧
          medication_kwargs !! "patient_id" = Some (PStr "p1") ∧
          medication_kwargs !! "patientId" = None).
Proof.
  split; eexists; (split; [reflexivity|]); split_and!; try reflexivity;
    by vm_compute.
Qed.

(** C3, at the failing input.  [Webhooks.create] called without a secret
    passes a body that still has the key [secret], bound to [None], which
    the JSON encoder writes as [null]. *)
Theorem webhook_create_keeps_None_secret (net : request → result response)
    (client : MedicamentaClient) (url : string) (events : list string) :
  ∃ req d, sent net (WebhooksResource.create client url events None) = [req] ∧
           req_json req = Some d ∧
           d !! "secret" = Some PNone ∧
           "secret" ∈ dom d.
Proof.
  eexists _, _. split; [reflexivity|]. split; [reflexivity|].
  assert (H : (list_to_map [("url", PStr url); ("events", PList (map PStr events));
                            ("secret", of_optional None)] : dict) !! "secret"
              = Some PNone) by by vm_compute.
  split; [exact H|]. apply elem_of_dom. by rewrite H.
Qed.

(** C4 (as amended).  Construction raises the [ValueError] exactly when both
    credentials are [None] or empty.  Otherwise it succeeds: with a
    non-empty [api_key] the session carries [X-API-Key] and no
    [Authorization] header (also when an [access_token] is given), and with
    no usable [api_key] it carries [Authorization: Bearer <access_token>]
    and no [X-API-Key]. *)
Theorem init_fails_iff_no_truthy_credential
    (key token : option string) (url : string) (seconds : Z) :
  (__init__ key token url seconds =
     Raises (ValueError "Either api_key or access_token must be provided") ↔
   truthy key = false ∧ truthy token = false) ∧
  (truthy key = true →
   ∃ c, __init__ key token url seconds = Returns c ∧
        session_headers c !! "X-API-Key" = key ∧
        session_headers c !! "Authorization" = None) ∧
  (truthy key = false → truthy token = true →
   ∃ c tok, token = Some tok ∧
        __init__ key token url seconds = Returns c ∧
        session_headers c !! "Authorization" = Some ("Bearer " +:+ tok) ∧
        session_headers c !! "X-API-Key" = None).
Proof.
  unfold __init__. split_and!.
  - destruct (truthy key), (truthy token); simpl; split; try done;
      intros [??]; done.
  - intros Hk. rewrite Hk. simpl.
    destruct key as [k|]; [|done]. eexists. split; [reflexivity|].
    simpl. split; by simplify_map_eq.
  - intros Hk Ht. rewrite Hk, Ht. simpl.
    destruct token as [tok|]; [|done]. eexists _, tok.
    split; [done|]. split; [reflexivity|].
    simpl. split; by simplify_map_eq.
Qed.

(** C4, witness: an API key alone. *)
Lemma init_with_api_key :
  ∃ c, __init__ (Some "sk_test") None default_base_url default_timeout = Returns c ∧
       session_headers c !! "X-API-Key" = Some "sk_test" ∧
       session_headers c !! "Authorization" = None.
Proof.
  apply (proj1 (proj2 (init_fails_iff_no_truthy_credential
           (Some "sk_test") None default_base_url default_timeout))).
  reflexivity.
Defined.

(** C4, counterexample: an [api_key] is supplied, it is the empty string,
    and construction fails. *)
Lemma init_rejects_supplied_empty_key :
  __init__ (Some "") None default_base_url default_timeout =
    Raises (ValueError "Either api_key or access_token must be provided") ∧
  ¬ ((Some "" : option string) = None ∧ (None : option string) = None).
Proof. split; [reflexivity|]. by intros [? _]. Qed.

(** A credential is false exactly when it is [None] or the empty string. *)
Lemma truthy_false_iff (o : option string) :
  truthy o = false ↔ o = None ∨ o = Some "".
Proof.
  destruct o as [s|]; simpl.
  - rewrite negb_false_iff, String.eqb_eq. split.
    + intros ->. by right.
    + intros [H|H]; [discriminate H | by injection H].
  - split; [by left | done].
Qed.

Lemma truthy_true_iff (o : option string) :
  truthy o = true ↔ ∃ s, o = Some s ∧ s ≠ "".
Proof.
  destruct o as [s|]; simpl.
  - rewrite negb_true_iff, String.eqb_neq. split.
    + intros Hs. by exists s.
    + by intros (s' & [= ->] & Hs).
  - split; [done|]. by intros (s & ? & _).
Qed.

(** C10.  Whether a credential is present is decided by its truth value,
    for every pair of arguments: construction fails exactly when each of
    [api_key] and [access_token] is [None] or the empty string; a non-empty
    [api_key] gives [X-API-Key], whatever the [access_token]; an [api_key]
    that is [None] or empty next to a non-empty [access_token] gives
    [Authorization: Bearer] and no [X-API-Key].  In particular an
    [api_key] supplied as the empty string makes construction fail when it
    stands alone, and is passed over for the token when there is one; the
    same holds of an empty [access_token] standing alone. *)
Theorem credential_presence_is_truthiness
    (key token : option string) (url : string) (seconds : Z) :
  (__init__ key token url seconds =
     Raises (ValueError "Either api_key or access_token must be provided") ↔
   (key = None ∨ key = Some "") ∧ (token = None ∨ token = Some "")) ∧
  (∀ k, key = Some k → k ≠ "" →
     ∃ c, __init__ key token url seconds = Returns c ∧
          api_key c = key ∧ access_token c = token ∧
          session_headers c !! "X-API-Key" = Some k ∧
          session_headers c !! "Authorization" = None) ∧
  (key = None ∨ key = Some "" →
   ∀ tok, token = Some tok → tok ≠ "" →
     ∃ c, __init__ key token url seconds = Returns c ∧
          api_key c = key ∧ access_token c = token ∧
          session_headers c !! "Authorization" = Some ("Bearer " +:+ tok) ∧
          session_headers c !! "X-API-Key" = None) ∧
  __init__ (Some "") None url seconds =
    Raises (ValueError "Either api_key or access_token must be provided") ∧
  __init__ None (Some "") url seconds =
    Raises (ValueError "Either api_key or access_token must be provided") ∧
  (∀ tok, tok ≠ "" →
     ∃ c, __init__ (Some "") (Some tok) url seconds = Returns c ∧
          api_key c = Some "" ∧
          session_headers c !! "Authorization" = Some ("Bearer " +:+ tok) ∧
          session_headers c !! "X-API-Key" = None).
Proof.
  split_and!.
  - rewrite <- !truthy_false_iff. unfold __init__.
    destruct (truthy key), (truthy token); simpl; split; try done;
      by intros [??].
  - intros k -> Hk.
    assert (Ht : truthy (Some k) = true) by (apply truthy_true_iff; by exists k).
    unfold __init__. rewrite Ht. simpl.
    eexists. split; [reflexivity|]. simpl.
    split_and!; try done; by simplify_map_eq.
  - intros Hkey%truthy_false_iff tok -> Htok.
    assert (Ht : truthy (Some tok) = true) by (apply truthy_true_iff; by exists tok).
    unfold __init__. rewrite Hkey, Ht. simpl.
    eexists. split; [reflexivity|]. simpl.
    split_and!; try done; by simplify_map_eq.
  - reflexivity.
  - reflexivity.
  - intros tok Htok.
    assert (Ht : truthy (Some tok) = true) by (apply truthy_true_iff; by exists tok).
    unfold __init__. rewrite Ht. simpl.
    eexists. split; [reflexivity|]. simpl.
    split; [done|]. split; by simplify_map_eq.
Qed.

(** C10, witness: an empty key next to the token [tok]. *)
Lemma init_empty_key_with_token :
  ∃ c, __init__ (Some "") (Some "tok") default_base_url default_timeout = Returns c ∧
       api_key c = Some "" ∧ access_token c = Some "tok" ∧
       session_headers c !! "Authorization" = Some "Bearer tok" ∧
       session_headers c !! "X-API-Key" = None.
Proof.
  apply (proj1 (proj2 (proj2 (credential_presence_is_truthiness
           (Some "") (Some "tok") default_base_url default_timeout)))
           (or_intror eq_refl) "tok" eq_refl).
  done.
Defined.

(** C5 (as amended).  Whatever the operation, when the remote end answers
    404 with the body [{"error":{"message":"Patient not found"}}], the call
    raises [MedicamentaError] with the message
    [API Error: Patient not found]: the text of [error.message] after the
    prefix the handler puts before it. *)
Theorem not_found_message_has_prefix (net : request → result response)
    (client : MedicamentaClient) (op : operation) (req : request) (r : response) :
  sent net (perform client op) = [req] →
  net req = Returns r →
  status_code r = 404%Z →
  content r = not_found_body →
  json_result r = Returns not_found_json →
  run net (perform client op) =
    Raises (MedicamentaError (Text "API Error: Patient not found")).
Proof.
  intros Hsent Hnet Hs Hc Hj.
  destruct (run_perform net client op) as (req' & Hsent' & _ & _ & _ & ->).
  rewrite Hsent' in Hsent. injection Hsent as ->. rewrite Hnet.
  rewrite (finish_error_message r
             {[ "error" := PDict {[ "message" := PStr "Patient not found" ]} ]}
             {[ "message" := PStr "Patient not found" ]} "Patient not found");
    [reflexivity | lia | by rewrite Hc | exact Hj | by vm_compute | by vm_compute].
Qed.

(** C5, witness: a patient that does not exist. *)
Lemma get_missing_patient :
  run (answer 404 "Not Found" not_found_body (Returns not_found_json))
      (perform client0 (PatientsGet "p1")) =
    Raises (MedicamentaError (Text "API Error: Patient not found")).
Proof.
  eapply not_found_message_has_prefix; reflexivity.
Defined.

(** C5, counterexample: the message is not the bare [Patient not found]. *)
Lemma not_found_message_is_not_bare :
  run (answer 404 "Not Found" not_found_body (Returns not_found_json))
      (PatientsResource.get client0 "p1") =
    Raises (MedicamentaError (Text "API Error: Patient not found")) ∧
  run (answer 404 "Not Found" not_found_body (Returns not_found_json))
      (PatientsResource.get client0 "p1") ≠
    Raises (MedicamentaError (Text "Patient not found")).
Proof.
  assert (H : run (answer 404 "Not Found" not_found_body (Returns not_found_json))
                (PatientsResource.get client0 "p1") =
              Raises (MedicamentaError (Text "API Error: Patient not found")))
    by by vm_compute.
  split; [exact H|]. rewrite H. discriminate.
Qed.

(** C6, at the failing input.  A 502 whose body is an HTML page: the
    decoder's [JSONDecodeError] leaves [_request] as it is, not wrapped in
    a [MedicamentaError]. *)
Theorem error_body_not_json_escapes :
  run (answer 502 "Bad Gateway" "<html>Bad Gateway</html>"
         (Raises (JSONDecodeError expecting_value)))
      (PatientsResource.get client0 "p1") =
    Raises (JSONDecodeError expecting_value).
Proof. by vm_compute. Qed.

(** C7 (as amended).  On a 2xx response [_request] returns what
    [response.json()] decodes, and nothing else; when the body cannot be
    decoded the call raises [MedicamentaError] with the message
    [Request failed: ] followed by the decoder's message. *)
Theorem success_returns_decoded_body (net : request → result response)
    (self : MedicamentaClient) (method path : string) (params json : option dict)
    (req : request) (r : response) :
  sent net (_request self method path params json) = [req] →
  net req = Returns r →
  (200 ≤ status_code r < 300)%Z →
  (∀ v, json_result r = Returns v →
        run net (_request self method path params json) = Returns v) ∧
  (∀ m, json_result r = Raises (JSONDecodeError m) →
        run net (_request self method path params json) =
          Raises (MedicamentaError (Text ("Request failed: " +:+ m)))).
Proof.
  intros Hsent Hnet Hs.
  destruct (run_request net self method path params json)
    as (req' & Hsent' & -> & _).
  rewrite Hsent' in Hsent. injection Hsent as ->. rewrite Hnet.
  rewrite finish_success by lia.
  split; intros ? ->; reflexivity.
Qed.

(** C7, witness: a 200 with an empty JSON object as its body. *)
Lemma success_on_empty_object :
  run (answer 200 "OK" "{}" (Returns (PDict ∅)))
      (_request client0 "GET" "/v1/reports/compliance" None None) =
    Returns (PDict ∅).
Proof.
  apply (proj1 (success_returns_decoded_body
    (answer 200 "OK" "{}" (Returns (PDict ∅)))
    client0 "GET" "/v1/reports/compliance" None None
    {| req_method := "GET";
       req_url := base_url client0 +:+ "/v1/reports/compliance";
       req_params := None; req_json := None;
       req_headers := session_headers client0; req_timeout := timeout client0 |}
    {| status_code := 200; reason := "OK";
       url := base_url client0 +:+ "/v1/reports/compliance";
       content := "{}"; json_result := Returns (PDict ∅) |}
    eq_refl eq_refl ltac:(simpl; lia))).
  reflexivity.
Defined.

(** C7, counterexample: a 200 whose body is not JSON makes the call fail;
    no value is returned. *)
Lemma success_body_not_json_fails :
  run (answer 200 "OK" "OK" (Raises (JSONDecodeError expecting_value)))
      (PatientsResource.get client0 "p1") =
    Raises (MedicamentaError
              (Text "Request failed: Expecting value: line 1 column 1 (char 0)")) ∧
  ¬ ∃ v, run (answer 200 "OK" "OK" (Raises (JSONDecodeError expecting_value)))
           (PatientsResource.get client0 "p1") = Returns v.
Proof.
  assert (H : run (answer 200 "OK" "OK" (Raises (JSONDecodeError expecting_value)))
                (PatientsResource.get client0 "p1") =
              Raises (MedicamentaError
                (Text "Request failed: Expecting value: line 1 column 1 (char 0)")))
    by by vm_compute.
  split; [exact H|]. intros [v Hv]. rewrite H in Hv. discriminate.
Qed.

(** C8 (as amended).  A client that was constructed holds at least one
    non-empty credential (it may hold both), and its session carries
    exactly one of the two authentication headers: [X-API-Key] when the
    [api_key] is non-empty, [Authorization] otherwise.  Every request of
    every operation goes out with the headers written at construction. *)
Theorem one_auth_header_fixed_at_construction
    (key token : option string) (url : string) (seconds : Z)
    (c : MedicamentaClient) :
  __init__ key token url seconds = Returns c →
  (truthy (api_key c) = true ∨ truthy (access_token c) = true) ∧
  has_header c "X-API-Key" = truthy (api_key c) ∧
  has_header c "Authorization" = negb (truthy (api_key c)) ∧
  (∀ op net req, req ∈ sent net (perform c op) →
                 req_headers req = session_headers c).
Proof.
  intros Hinit. split_and!.
  - unfold __init__ in Hinit.
    destruct (truthy key) eqn:Hk, (truthy token) eqn:Ht; simpl in Hinit;
      try discriminate; injection Hinit as <-; simpl; auto.
  - unfold __init__ in Hinit.
    destruct (truthy key) eqn:Hk, (truthy token) eqn:Ht; simpl in Hinit;
      try discriminate; injection Hinit as <-; unfold has_header; simpl;
      rewrite Hk; by simplify_map_eq.
  - unfold __init__ in Hinit.
    destruct (truthy key) eqn:Hk, (truthy token) eqn:Ht; simpl in Hinit;
      try discriminate; injection Hinit as <-; unfold has_header; simpl;
      rewrite Hk; by simplify_map_eq.
  - intros op net req Hreq.
    destruct (run_perform net c op) as (req' & Hsent & _ & _ & Hh & _).
    rewrite Hsent in Hreq. by apply list_elem_of_singleton in Hreq as ->.
Qed.

(** C8, witness: the client built from an API key alone. *)
Lemma client0_has_one_auth_header :
  (truthy (api_key client0) = true ∨ truthy (access_token client0) = true) ∧
  has_header client0 "X-API-Key" = truthy (api_key client0) ∧
  has_header client0 "Authorization" = negb (truthy (api_key client0)) ∧
  (∀ op net req, req ∈ sent net (perform client0 op) →
                 req_headers req = session_headers client0).
Proof.
  apply (one_auth_header_fixed_at_construction
           (Some "sk_test") None default_base_url default_timeout client0).
  by vm_compute.
Defined.

(** C8, counterexample: given both credentials the constructor succeeds
    and keeps both. *)
Lemma init_keeps_both_credentials :
  ∃ c, __init__ (Some "sk_test") (Some "tok") default_base_url default_timeout
         = Returns c ∧
       api_key c = Some "sk_test" ∧ access_token c = Some "tok".
Proof. eexists. split; [reflexivity|]. by split. Qed.

(** ** Further properties *)

(** The endpoint table: every operation sends exactly one request, with the
    method of the table and the base URL followed by the path of the table,
    path parameters substituted. *)
Theorem every_operation_follows_endpoint_table
    (net : request → result response) (client : MedicamentaClient)
    (op : operation) :
  ∃ req, sent net (perform client op) = [req] ∧
         req_method req = (endpoint op).1 ∧
         req_url req = base_url client +:+ (endpoint op).2.
Proof.
  destruct (run_perform net client op) as (req & Hsent & Hm & Hu & _).
  by exists req.
Qed.

(** The comprehension that removes [None] values keeps exactly the keys
    bound to something else, with their values. *)
Theorem drop_None_keeps_other_keys (d : dict) (k : string) :
  (k ∈ dom (drop_None d) ↔ ∃ v, d !! k = Some v ∧ v ≠ PNone) ∧
  (∀ v, drop_None d !! k = Some v → d !! k = Some v).
Proof.
  unfold drop_None. split.
  - rewrite elem_of_dom. split.
    + intros [v [Hv Hn]%map_lookup_filter_Some]. exists v. split; [done|].
      intros ->. by apply Hn.
    + intros (v & Hv & Hn). exists v. apply map_lookup_filter_Some.
      split; [done|]. simpl. destruct v; simpl; intuition congruence.
  - by intros v [Hv _]%map_lookup_filter_Some.
Qed.

(** [Patients.list]: [limit] and [offset] always go out, [status] and
    [search] only when they are given, and no parameter is [None]. *)
Theorem patients_list_omits_unset (net : request → result response)
    (client : MedicamentaClient) (limit offset : Z) (status search : option string) :
  ∃ req p, sent net (PatientsResource.list client limit offset status search) = [req] ∧
           req_params req = Some p ∧
           p !! "limit" = Some (PInt limit) ∧
           p !! "offset" = Some (PInt offset) ∧
           p !! "status" = PStr <$> status ∧
           p !! "search" = PStr <$> search ∧
           ∀ k v, p !! k = Some v → v ≠ PNone.
Proof.
  eexists _, _. split; [reflexivity|]. split; [reflexivity|].
  split_and!; try (destruct status, search; by vm_compute).
  intros k v [_ Hn]%map_lookup_filter_Some ->. by apply Hn.
Qed.

(** [Patients.delete] sends [DELETE /v1/patients/{id}] with the query
    [hard=true] or [hard=false]. *)
Theorem patients_delete_query (net : request → result response)
    (client : MedicamentaClient) (patient_id : string) (hard : bool) :
  ∃ req, sent net (PatientsResource.delete client patient_id hard) = [req] ∧
         req_method req = "DELETE" ∧
         req_url req = base_url client +:+ "/v1/patients/" +:+ patient_id ∧
         req_params req = Some {[ "hard" := PStr (if hard then "true" else "false") ]}.
Proof.
  unfold PatientsResource.delete, mbind, mret, io_mbind, io_ret. simpl.
  eexists. split.
  - apply (f_equal2 cons); [reflexivity|]. by destruct (finish _).
  - by split_and!.
Qed.

(** An error status with an empty body surfaces as [MedicamentaError] with
    a non-empty message taken from the status line. *)
Theorem empty_error_body_falls_back (net : request → result response)
    (client : MedicamentaClient) (op : operation) (req : request) (r : response) :
  sent net (perform client op) = [req] →
  net req = Returns r →
  (400 ≤ status_code r < 600)%Z →
  content r = "" →
  ∃ msg, msg ≠ "" ∧
    run net (perform client op) =
      Raises (MedicamentaError (Text ("API Error: " +:+ msg))).
Proof.
  intros Hsent Hnet Hs Hc.
  destruct (run_perform net client op) as (req' & Hsent' & _ & _ & _ & ->).
  rewrite Hsent' in Hsent. injection Hsent as ->. rewrite Hnet.
  destruct (finish_error_empty r Hs Hc) as (msg & Hne & _ & ->).
  by exists msg.
Qed.

Lemma empty_error_body_example :
  ∃ msg, msg ≠ "" ∧
    run (answer 503 "Service Unavailable" "" (Raises (JSONDecodeError expecting_value)))
        (perform client0 ReportsCompliance) =
      Raises (MedicamentaError (Text ("API Error: " +:+ msg))).
Proof.
  eapply empty_error_body_falls_back;
    [reflexivity | reflexivity | simpl; lia | reflexivity].
Defined.

(** A failure of the transport itself surfaces as [MedicamentaError] with
    the message [Request failed: ] followed by the library's text. *)
Theorem network_failure_is_wrapped (net : request → result response)
    (client : MedicamentaClient) (op : operation) (req : request) (m : string) :
  sent net (perform client op) = [req] →
  net req = Raises (RequestException m) →
  run net (perform client op) =
    Raises (MedicamentaError (Text ("Request failed: " +:+ m))).
Proof.
  intros Hsent Hnet.
  destruct (run_perform net client op) as (req' & Hsent' & _ & _ & _ & ->).
  rewrite Hsent' in Hsent. injection Hsent as ->. by rewrite Hnet.
Qed.

Lemma network_failure_example :
  run (fun _ => Raises (RequestException "timed out"))
      (perform client0 WebhooksList) =
    Raises (MedicamentaError (Text "Request failed: timed out")).
Proof.
  eapply network_failure_is_wrapped; reflexivity.
Defined.

(** The test vector of the specification: the recomputed digest is the
    published one; the signature is accepted; a wrong secret, a tampered
    payload, a tampered timestamp and a digest with one digit changed are
    answered [False]; a digest with a non-ASCII character raises
    [TypeError]. *)
Theorem test_vector_outcomes :
  Hmac.hexdigest secret0 (timestamp0 ++ [dot] ++ payload0) = digest0 ∧
  verify_webhook_signature payload0 signature0 secret0 = Returns true ∧
  verify_webhook_signature payload0 signature0 (lit "whsec_other") = Returns false ∧
  verify_webhook_signature (payload0 ++ lit " ") signature0 secret0 = Returns false ∧
  verify_webhook_signature payload0 (lit "t=1700000001,v1=" ++ digest0) secret0
    = Returns false ∧
  verify_webhook_signature payload0
    (lit "t=1700000000,v1=85dad8228c0c5155acb324cf7743f7a5aec9b16e862fade0feb87d758fdc9f97")
    secret0 = Returns false ∧
  verify_webhook_signature payload0 (lit "t=1700000000,v1=" ++ [233%N]) secret0
    = Raises TypeError.
Proof. split_and!; by vm_compute. Qed.

(** An error status with a non-empty body that [response.json()] cannot
    decode: whatever the decoder raises is what the call raises. *)
Theorem undecodable_error_body_escapes (net : request → result response)
    (client : MedicamentaClient) (op : operation) (req : request) (r : response)
    (e : exn) :
  sent net (perform client op) = [req] →
  net req = Returns r →
  (400 ≤ status_code r < 600)%Z →
  content r ≠ "" →
  json_result r = Raises e →
  run net (perform client op) = Raises e.
Proof.
  intros Hsent Hnet Hs Hc Hj.
  destruct (run_perform net client op) as (req' & Hsent' & _ & _ & _ & ->).
  rewrite Hsent' in Hsent. injection Hsent as ->. rewrite Hnet.
  by rewrite (finish_error_undecodable r e Hs Hc Hj).
Qed.

Lemma undecodable_error_body_example :
  run (answer 500 "Internal Server Error" "Internal Server Error"
         (Raises (JSONDecodeError expecting_value)))
      (perform client0 (MedicationsDelete "m1")) =
    Raises (JSONDecodeError expecting_value).
Proof.
  eapply undecodable_error_body_escapes;
    [reflexivity | reflexivity | simpl; lia | done | reflexivity].
Defined.

(** ** The verifier: what it raises and what it does not read *)

Section SplitMore.
Local Open Scope N_scope.

(** Splitting distributes over a separator in the middle. *)
Lemma split_app (sep : N) (a b : pystr) :
  Str.split sep (a ++ sep :: b) = Str.split sep a ++ Str.split sep b.
Proof.
  induction a as [|c a IH]; simpl.
  - by rewrite N.eqb_refl.
  - destruct (N.eqb_spec c sep) as [->|_]; rewrite IH; [done|].
    pose proof (split_not_nil sep a). by destruct (Str.split sep a).
Qed.

(** The characters of a part are characters of the string. *)
Lemma split_part_chars (sep : N) (s p : pystr) (c : N) :
  p ∈ Str.split sep s → c ∈ p → c ∈ s.
Proof.
  revert p. induction s as [|d s IH]; intros p; simpl.
  - intros ->%list_elem_of_singleton. by intros ?%elem_of_nil.
  - destruct (N.eqb_spec d sep) as [->|_].
    + intros [->|Hp]%elem_of_cons Hc; [by apply elem_of_nil in Hc|].
      apply elem_of_cons. right. by apply (IH p).
    + pose proof (split_not_nil sep s) as Hne.
      destruct (Str.split sep s) as [|q qs]; [done|].
      intros [->|Hp]%elem_of_cons Hc.
      * apply elem_of_cons in Hc as [->|Hc]; apply elem_of_cons; [by left|].
        right. apply (IH q); [apply elem_of_cons; by left | done].
      * apply elem_of_cons. right. apply (IH p); [|done].
        apply elem_of_cons. by right.
Qed.

(** A string with a separator has two parts or more. *)
Lemma split_length_ge_2 (sep : N) (s : pystr) :
  sep ∈ s → (2 ≤ length (Str.split sep s))%nat.
Proof.
  induction s as [|c s IH]; simpl; [by intros ?%elem_of_nil|].
  pose proof (split_not_nil sep s) as Hne.
  destruct (N.eqb_spec c sep) as [->|Hc].
  - intros _. destruct (Str.split sep s); [done|simpl; lia].
  - intros [->|Hs]%elem_of_cons; [done|]. specialize (IH Hs).
    destruct (Str.split sep s); [done|]. exact IH.
Qed.

(** The values read from an all-ASCII signature are ASCII. *)
Lemma value_of_part_isascii (i : nat) (signature v : pystr) :
  Str.isascii signature = true → value_of_part i signature = Some v →
  Str.isascii v = true.
Proof.
  unfold Str.isascii, value_of_part. rewrite !forallb_forall.
  intros Hsig Hv c Hc%list_elem_of_In. apply Hsig, list_elem_of_In.
  destruct (Str.split comma signature !! i) as [p|] eqn:Hp; [|done].
  simpl in Hv.
  apply (split_part_chars comma signature p); [by eapply list_elem_of_lookup_2|].
  apply (split_part_chars equals p v); [by eapply list_elem_of_lookup_2|done].
Qed.

End SplitMore.

(** The only exception that leaves the verifier is the [TypeError] of the
    digest comparison, and only for a received digest with a non-ASCII
    character. *)
Theorem verify_raises_only_TypeError (payload signature secret : pystr) (e : exn) :
  verify_webhook_signature payload signature secret = Raises e →
  e = TypeError ∧
  ∃ received, value_of_part 1 signature = Some received ∧
              Str.isascii received = false.
Proof.
  rewrite verify_outcome.
  destruct (value_of_part 0 signature) as [timestamp|]; [|done].
  destruct (value_of_part 1 signature) as [received|]; [|done].
  destruct (Str.encode secret) as [key|]; [|done].
  destruct (Str.encode (timestamp ++ [dot] ++ payload)) as [msg|]; [|done].
  destruct (Str.isascii received) eqn:Hascii; [done|].
  intros [= <-]. split; [done|]. by exists received.
Qed.

Lemma verify_raises_only_TypeError_example :
  TypeError = TypeError ∧
  ∃ received, value_of_part 1 (lit "t=1700000000,v1=" ++ [233%N]) = Some received ∧
              Str.isascii received = false.
Proof.
  apply (verify_raises_only_TypeError payload0 _ secret0). by vm_compute.
Defined.

(** On a signature made of ASCII characters the verifier raises nothing: it
    answers [True] or [False], whatever the payload and the secret. *)
Theorem verify_total_on_ascii_signature (payload signature secret : pystr) :
  Str.isascii signature = true →
  ∃ b, verify_webhook_signature payload signature secret = Returns b.
Proof.
  intros Hsig. rewrite verify_outcome.
  destruct (value_of_part 0 signature) as [timestamp|]; [|by eexists].
  destruct (value_of_part 1 signature) as [received|] eqn:H1; [|by eexists].
  destruct (Str.encode secret) as [key|]; [|by eexists].
  destruct (Str.encode (timestamp ++ [dot] ++ payload)) as [msg|]; [|by eexists].
  rewrite (value_of_part_isascii 1 signature received Hsig H1). by eexists.
Qed.

Lemma verify_total_on_ascii_signature_example :
  ∃ b, verify_webhook_signature payload0 (lit "t=,v1=,,==") [0xD800%N] = Returns b.
Proof.
  apply verify_total_on_ascii_signature. by vm_compute.
Defined.

(** Parts after the second are not read: appending a comma and anything to
    a signature that has a comma leaves the outcome as it was. *)
Theorem verify_ignores_further_parts (payload signature extra secret : pystr) :
  comma ∈ signature →
  verify_webhook_signature payload (signature ++ comma :: extra) secret =
  verify_webhook_signature payload signature secret.
Proof.
  intros Hc%split_length_ge_2.
  assert (Hpart : ∀ i, (i < 2)%nat →
            value_of_part i (signature ++ comma :: extra) = value_of_part i signature).
  { intros i Hi. unfold value_of_part.
    rewrite split_app, lookup_app_l by lia. done. }
  rewrite !verify_outcome, !Hpart by lia. done.
Qed.

Lemma verify_ignores_further_parts_example :
  verify_webhook_signature payload0 (signature0 ++ comma :: lit "v0=junk") secret0 =
  verify_webhook_signature payload0 signature0 secret0.
Proof.
  apply verify_ignores_further_parts.
  apply (bool_decide_unpack _). by vm_compute.
Defined.

Section Labels.
Local Open Scope N_scope.

(** The two values of a signature [k0=T,k1=D]. *)
Lemma labelled_values (k0 k1 T D : pystr) :
  comma ∉ k0 → equals ∉ k0 → comma ∉ k1 → equals ∉ k1 →
  comma ∉ T → equals ∉ T → comma ∉ D → equals ∉ D →
  value_of_part 0 (k0 ++ equals :: T ++ comma :: k1 ++ equals :: D) = Some T ∧
  value_of_part 1 (k0 ++ equals :: T ++ comma :: k1 ++ equals :: D) = Some D.
Proof.
  intros Hc0 He0 Hc1 He1 HcT HeT HcD HeD.
  assert (Hparts : Str.split comma (k0 ++ equals :: T ++ comma :: k1 ++ equals :: D)
                   = [k0 ++ equals :: T; k1 ++ equals :: D]).
  { replace (k0 ++ equals :: T ++ comma :: k1 ++ equals :: D)
      with ((k0 ++ equals :: T) ++ comma :: (k1 ++ equals :: D))
      by (by rewrite <- app_assoc).
    apply split_key_value; rewrite elem_of_app, elem_of_cons;
      intros [?|[?|?]]; done. }
  unfold value_of_part. rewrite Hparts. simpl.
  by rewrite !split_key_value.
Qed.

End Labels.

(** The labels are not read: a signature [k0=T,k1=D] is judged as
    [t=T,v1=D] is, whatever stands before each [=]. *)
Theorem verify_ignores_labels (payload k0 k1 T D secret : pystr) :
  comma ∉ k0 → equals ∉ k0 → comma ∉ k1 → equals ∉ k1 →
  comma ∉ T → equals ∉ T → comma ∉ D → equals ∉ D →
  verify_webhook_signature payload
    (k0 ++ equals :: T ++ comma :: k1 ++ equals :: D) secret =
  verify_webhook_signature payload (lit "t=" ++ T ++ lit ",v1=" ++ D) secret.
Proof.
  intros Hc0 He0 Hc1 He1 HcT HeT HcD HeD.
  destruct (labelled_values k0 k1 T D) as [H0 H1]; try done.
  destruct (labelled_values (lit "t") (lit "v1") T D) as [H0' H1']; try done;
    try (apply (bool_decide_unpack _); by vm_compute).
  change (lit "t" ++ equals :: T ++ comma :: lit "v1" ++ equals :: D)
    with (lit "t=" ++ T ++ lit ",v1=" ++ D) in H0', H1'.
  by rewrite !verify_outcome, H0, H1, H0', H1'.
Qed.

Lemma verify_ignores_labels_example :
  verify_webhook_signature payload0
    (lit "ts" ++ equals :: timestamp0 ++ comma :: lit "sig" ++ equals :: digest0) secret0 =
  verify_webhook_signature payload0 (lit "t=" ++ timestamp0 ++ lit ",v1=" ++ digest0) secret0.
Proof.
  apply verify_ignores_labels; apply (bool_decide_unpack _); by vm_compute.
Defined.

Section DigestLength.
Local Open Scope N_scope.

Lemma round_length (st : list N) (kw : N * N) :
  length (Sha256.round st kw) = length st.
Proof.
  by destruct st as [|a [|b [|c [|d [|e [|f [|g [|h [|i t]]]]]]]]].
Qed.

Lemma compress_length (h : list N) (block : pybytes) :
  length (Sha256.compress h block) = length h.
Proof.
  unfold Sha256.compress. rewrite length_zip_with.
  assert (Hfold : ∀ l st, length (fold_left Sha256.round l st) = length st).
  { induction l as [|kw l IH]; intros st; simpl; [done|].
    by rewrite IH, round_length. }
  rewrite Hfold. lia.
Qed.

(** A SHA-256 digest has thirty-two bytes. *)
Lemma sha256_digest_length (msg : pybytes) : length (Sha256.digest msg) = 32%nat.
Proof.
  unfold Sha256.digest.
  set (blocks := Sha256.chunks 64 _ _).
  assert (Hh : length (fold_left Sha256.compress blocks Sha256.H0) = 8%nat).
  { generalize Sha256.H0 (eq_refl : length Sha256.H0 = 8%nat).
    induction blocks as [|b bs IH]; intros h Hh; simpl; [done|].
    apply IH. by rewrite compress_length. }
  revert Hh. generalize (fold_left Sha256.compress blocks Sha256.H0).
  intros h Hh.
  do 9 (destruct h as [|? h]; try discriminate Hh).
  reflexivity.
Qed.

(** The digest text has sixty-four characters. *)
Lemma hexdigest_length (key msg : pybytes) : length (Hmac.hexdigest key msg) = 64%nat.
Proof.
  unfold Hmac.hexdigest, Hmac.digest.
  set (k := (_ ++ repeat 0 _)%list).
  pose proof (sha256_digest_length
    (map (N.lxor 0x5c) k ++ Sha256.digest (map (N.lxor 0x36) k ++ msg))) as Hlen.
  revert Hlen. generalize (Sha256.digest
    (map (N.lxor 0x5c) k ++ Sha256.digest (map (N.lxor 0x36) k ++ msg))).
  intros d Hd.
  assert (H2 : ∀ l : pybytes,
    length (flat_map (fun b => [Hmac.hex_digit (b / 16); Hmac.hex_digit (b mod 16)]) l)
    = (2 * length l)%nat).
  { induction l as [|b l IH]; simpl; [done|]. rewrite IH. lia. }
  rewrite H2, Hd. done.
Qed.

End DigestLength.

(** A signature whose digest is not sixty-four characters long is never
    accepted. *)
Theorem verify_rejects_other_lengths (payload signature secret received : pystr) :
  value_of_part 1 signature = Some received →
  length received ≠ 64%nat →
  verify_webhook_signature payload signature secret ≠ Returns true.
Proof.
  intros H1 Hlen. rewrite verify_outcome, H1.
  destruct (value_of_part 0 signature) as [timestamp|]; [|done].
  destruct (Str.encode secret) as [key|]; [|done].
  destruct (Str.encode (timestamp ++ [dot] ++ payload)) as [msg|]; [|done].
  destruct (Str.isascii received); [|done].
  intros [= Heq%bool_decide_eq_true_1]. apply Hlen.
  rewrite Heq. apply hexdigest_length.
Qed.

Lemma verify_rejects_other_lengths_example :
  verify_webhook_signature payload0 (lit "t=1700000000,v1=75dad822") secret0
    ≠ Returns true.
Proof.
  apply (verify_rejects_other_lengths _ _ _ (lit "75dad822")); by vm_compute.
Defined.

Section KeyPadding.
Local Open Scope N_scope.

(** HMAC pads a short key with zero bytes, so one more zero byte at the end
    of a key shorter than the block changes nothing. *)
Lemma hmac_digest_zero_padded (key msg : pybytes) :
  (length key < 64)%nat → Hmac.digest (key ++ [0]) msg = Hmac.digest key msg.
Proof.
  intros Hlen. unfold Hmac.digest, Hmac.block_size. cbv zeta.
  replace (Nat.ltb 64 (length (key ++ [0]))) with false
    by (symmetry; apply Nat.ltb_ge; rewrite length_app; simpl; lia).
  replace (Nat.ltb 64 (length key)) with false
    by (symmetry; apply Nat.ltb_ge; lia).
  replace ((key ++ [0]) ++ repeat 0 (64 - length (key ++ [0])))
    with (key ++ repeat 0 (64 - length key)); [reflexivity|].
  rewrite length_app. simpl length.
  rewrite <- app_assoc. f_equal.
  replace (64 - length key)%nat with (S (64 - (length key + 1))) by lia.
  done.
Qed.

Lemma hexdigest_zero_padded (key msg : pybytes) :
  (length key < 64)%nat → Hmac.hexdigest (key ++ [0]) msg = Hmac.hexdigest key msg.
Proof.
  intros Hlen. unfold Hmac.hexdigest. by rewrite hmac_digest_zero_padded.
Qed.

Lemma encode_app (a b : pystr) :
  Str.encode (a ++ b) =
  (x ← Str.encode a; y ← Str.encode b; mret (x ++ y)).
Proof.
  induction a as [|c a IH]; simpl.
  - by destruct (Str.encode b).
  - destruct (Str.encode_char c) as [bs|]; [|done]. rewrite IH.
    destruct (Str.encode a) as [x|]; simpl; [|done].
    destruct (Str.encode b) as [y|]; simpl; [|done].
    by rewrite app_assoc.
Qed.

End KeyPadding.

(** A secret and the same secret followed by the character U+0000 verify
    the same signatures, as long as the secret takes fewer than sixty-four
    bytes. *)
Theorem verify_secret_with_trailing_zero (payload signature secret : pystr)
    (key : pybytes) :
  Str.encode secret = Returns key → (length key < 64)%nat →
  verify_webhook_signature payload signature (secret ++ [0%N]) =
  verify_webhook_signature payload signature secret.
Proof.
  intros Hkey Hlen. rewrite !verify_outcome, encode_app, Hkey. simpl.
  destruct (value_of_part 0 signature) as [timestamp|]; [|done].
  destruct (value_of_part 1 signature) as [received|]; [|done].
  destruct (Str.encode (timestamp ++ _)) as [msg|]; [|done].
  by rewrite hexdigest_zero_padded.
Qed.

Lemma verify_secret_with_trailing_zero_example :
  verify_webhook_signature payload0 signature0 (secret0 ++ [0%N]) =
  verify_webhook_signature payload0 signature0 secret0.
Proof.
  apply (verify_secret_with_trailing_zero _ _ _ secret0); [by vm_compute|].
  vm_compute. lia.
Defined.

(** ** The transport: construction *)

Section Rstrip.

Lemma append_slash_not_empty (t : string) : t +:+ "/" ≠ "".
Proof. by destruct t. Qed.

(** The stripped string does not end with a slash. *)
Lemma rstrip_slash_no_trailing (s t : string) : rstrip_slash s ≠ t +:+ "/".
Proof.
  revert t. induction s as [|c s IH]; intros t; simpl.
  - intros H. by apply (append_slash_not_empty t).
  - destruct (rstrip_slash s) as [|a r] eqn:Hr.
    + destruct (Ascii.eqb_spec c "/") as [->|Hc].
      * intros H. by apply (append_slash_not_empty t).
      * destruct t as [|b t]; simpl; [by intros [= ->]|].
        intros [= _ H]. by apply (append_slash_not_empty t).
    + destruct t as [|b t]; simpl; [by intros [=]|].
      intros [= _ H]. by apply (IH t).
Qed.

(** A string that does not end with a slash is left as it is. *)
Lemma rstrip_slash_fixed (s : string) :
  (∀ t, s ≠ t +:+ "/") → rstrip_slash s = s.
Proof.
  induction s as [|c s IH]; intros Hs; simpl; [done|].
  destruct s as [|a s].
  - simpl. destruct (Ascii.eqb_spec c "/") as [->|Hc]; [|done].
    by destruct (Hs "").
  - rewrite IH; [done|]. intros t Ht. apply (Hs (String c t)).
    simpl. by rewrite Ht.
Qed.

(** One more slash at the end is stripped with the others. *)
Lemma rstrip_slash_append_slash (s : string) :
  rstrip_slash (s +:+ "/") = rstrip_slash s.
Proof.
  induction s as [|c s IH]; simpl; [done|]. by rewrite IH.
Qed.

End Rstrip.

(** The base URL of a constructed client never ends with a slash; a URL
    given without a trailing slash is kept as it is; and one more slash at
    the end of the URL given builds the same client. *)
Theorem init_strips_trailing_slashes
    (key token : option string) (url : string) (seconds : Z)
    (c : MedicamentaClient) :
  __init__ key token url seconds = Returns c →
  (∀ t, base_url c ≠ t +:+ "/") ∧
  ((∀ t, url ≠ t +:+ "/") → base_url c = url) ∧
  __init__ key token (url +:+ "/") seconds = Returns c.
Proof.
  intros Hinit.
  assert (Hbase : base_url c = rstrip_slash url).
  { unfold __init__ in Hinit.
    destruct (negb (truthy key) && negb (truthy token)); [done|].
    by injection Hinit as <-. }
  split_and!.
  - intros t. rewrite Hbase. apply rstrip_slash_no_trailing.
  - intros Hurl. rewrite Hbase. by apply rstrip_slash_fixed.
  - rewrite <- Hinit. unfold __init__. by rewrite rstrip_slash_append_slash.
Qed.

Lemma init_strips_trailing_slashes_example :
  (∀ t, base_url client0 ≠ t +:+ "/") ∧
  ((∀ t, default_base_url +:+ "//" ≠ t +:+ "/") → base_url client0 = default_base_url +:+ "//") ∧
  __init__ (Some "sk_test") None ((default_base_url +:+ "//") +:+ "/") default_timeout
    = Returns client0.
Proof.
  apply (init_strips_trailing_slashes (Some "sk_test") None
           (default_base_url +:+ "//") default_timeout client0).
  by vm_compute.
Defined.

(** ** The facades: the shape of every request *)

(** The credentials reach the headers and nothing else: two clients with
    the same base URL send, for the same call, the same method, URL, query
    and body, whatever their credentials and whatever the remote end
    answers. *)
Theorem credentials_stay_in_headers (c1 c2 : MedicamentaClient)
    (op : operation) (net1 net2 : request → result response) (r1 r2 : request) :
  base_url c1 = base_url c2 →
  sent net1 (perform c1 op) = [r1] →
  sent net2 (perform c2 op) = [r2] →
  req_method r1 = req_method r2 ∧ req_url r1 = req_url r2 ∧
  req_params r1 = req_params r2 ∧ req_json r1 = req_json r2.
Proof.
  intros Hbase H1 H2.
  destruct op; the_request H1; the_request H2; simpl; by rewrite Hbase.
Qed.

Lemma credentials_stay_in_headers_example :
  req_method (delete_p1 client0) = req_method (delete_p1 client1) ∧
  req_url (delete_p1 client0) = req_url (delete_p1 client1) ∧
  req_params (delete_p1 client0) = req_params (delete_p1 client1) ∧
  req_json (delete_p1 client0) = req_json (delete_p1 client1).
Proof.
  apply (credentials_stay_in_headers client0 client1 (PatientsDelete "p1" true)
           (answer 200 "OK" "{}" (Returns (PDict ∅)))
           (fun _ => Raises (RequestException "timed out")));
    reflexivity.
Defined.

(** Query parameters go with GET and DELETE, a JSON body with POST and
    PATCH, never both; no other method is used, and the request carries
    the timeout of the client. *)
Theorem query_or_body_by_method (c : MedicamentaClient) (op : operation)
    (net : request → result response) (req : request) :
  sent net (perform c op) = [req] →
  (req_method req = "GET" ∨ req_method req = "DELETE" ∨
   req_method req = "POST" ∨ req_method req = "PATCH") ∧
  (req_method req = "GET" ∨ req_method req = "DELETE" → req_json req = None) ∧
  (req_method req = "POST" ∨ req_method req = "PATCH" → req_params req = None) ∧
  req_timeout req = timeout c.
Proof.
  intros H.
  destruct op; the_request H; simpl; split_and!; try done; auto;
    intros [?|?]; done.
Qed.

Lemma query_or_body_by_method_example :
  (req_method (delete_p1 client1) = "GET" ∨ req_method (delete_p1 client1) = "DELETE" ∨
   req_method (delete_p1 client1) = "POST" ∨ req_method (delete_p1 client1) = "PATCH") ∧
  (req_method (delete_p1 client1) = "GET" ∨ req_method (delete_p1 client1) = "DELETE" →
   req_json (delete_p1 client1) = None) ∧
  (req_method (delete_p1 client1) = "POST" ∨ req_method (delete_p1 client1) = "PATCH" →
   req_params (delete_p1 client1) = None) ∧
  req_timeout (delete_p1 client1) = timeout client1.
Proof.
  apply (query_or_body_by_method client1 (PatientsDelete "p1" true)
           (answer 204 "No Content" "" (Raises (JSONDecodeError expecting_value)))).
  reflexivity.
Defined.

Lemma drop_None_value (d : dict) (k : string) (v : pyvalue) :
  drop_None d !! k = Some v → v ≠ PNone.
Proof.
  unfold drop_None. intros [_ Hn]%map_lookup_filter_Some ->. by apply Hn.
Qed.

(** Apart from the four operations that take keyword arguments and from
    [Webhooks.create], no operation sends a query parameter or a body field
    whose value is [None]. *)
Theorem filtered_operations_send_no_None (c : MedicamentaClient) (op : operation)
    (net : request → result response) (req : request)
    (d : dict) (k : string) (v : pyvalue) :
  unfiltered op = false →
  sent net (perform c op) = [req] →
  req_params req = Some d ∨ req_json req = Some d →
  d !! k = Some v →
  v ≠ PNone.
Proof.
  intros Hop H. revert d k v.
  destruct op; try discriminate Hop; unfold_operation H;
    (injection H as <- _ || injection H as <-);
    intros d k v Hd Hk; cbn [req_params req_json] in Hd;
    destruct Hd as [Hd|Hd]; one_mapping Hd d;
    try exact (drop_None_value _ k v Hk).
  - apply lookup_singleton_Some in Hk as [_ <-]. by destruct hard.
  - apply lookup_insert_Some in Hk as [[_ <-]|[_ Hk]]; [done|].
    by apply lookup_insert_Some in Hk as [[_ <-]|[_ Hk]].
Qed.

Lemma filtered_operations_send_no_None_example :
  PStr "ana" ≠ PNone.
Proof.
  apply (filtered_operations_send_no_None client1
           (PatientsList 20 0 None (Some "ana"))
           (answer 200 "OK" "{}" (Returns (PDict ∅)))
           {| req_method := "GET"; req_url := base_url client1 +:+ "/v1/patients";
              req_params := Some (drop_None (list_to_map
                [("limit", PInt 20); ("offset", PInt 0);
                 ("status", PNone); ("search", PStr "ana")]));
              req_json := None; req_headers := session_headers client1;
              req_timeout := timeout client1 |}
           (drop_None (list_to_map
                [("limit", PInt 20); ("offset", PInt 0);
                 ("status", PNone); ("search", PStr "ana")]))
           "search" (PStr "ana"));
    [reflexivity | reflexivity | by left | by vm_compute].
Defined.

(** ** The transport: outcomes of a call *)

(** The handler of an HTTP error never returns a value. *)
Lemma except_HTTPError_raises (r : response) (str_e : string) :
  ∃ e, except_HTTPError r str_e = Raises e.
Proof.
  unfold except_HTTPError.
  destruct (if bool_decide (content r ≠ "") then json_result r
            else Returns (PDict ∅)) as [error_data|e]; simpl; [|by eexists].
  destruct (get error_data "error" (PDict ∅)) as [err|e]; simpl; [|by eexists].
  destruct (get err "message" (PStr str_e)) as [error_msg|e]; simpl; by eexists.
Qed.

Lemma except_RequestException_raises (e : exn) :
  ∃ e', except_RequestException e = Raises e'.
Proof. destruct e; by eexists. Qed.

(** A call returns a value exactly when the status is outside 400..599 and
    the body decodes; the value is the decoded body. *)
Theorem request_returns_iff (net : request → result response)
    (self : MedicamentaClient) (method path : string) (params json : option dict)
    (req : request) (r : response) (v : pyvalue) :
  sent net (_request self method path params json) = [req] →
  net req = Returns r →
  (run net (_request self method path params json) = Returns v ↔
   ¬ (400 ≤ status_code r < 600)%Z ∧ json_result r = Returns v).
Proof.
  intros Hsent Hnet.
  destruct (run_request net self method path params json)
    as (req' & Hsent' & -> & _).
  rewrite Hsent' in Hsent. injection Hsent as ->. rewrite Hnet.
  destruct (decide (400 ≤ status_code r < 600)%Z) as [Hs|Hs].
  - destruct (raise_for_status_error r Hs) as (str_e & Hr & _).
    unfold finish. rewrite Hr.
    destruct (except_HTTPError_raises r str_e) as [e ->].
    split; [done|]. by intros [? _].
  - rewrite finish_success by done.
    destruct (json_result r) as [v'|e].
    + split; [by intros [= ->]|]. by intros [_ [= ->]].
    + destruct (except_RequestException_raises e) as [e' ->].
      split; [done|]. by intros [_ ?].
Qed.

Lemma request_returns_iff_example :
  run (answer 399 "Unknown" "[]" (Returns (PList [])))
      (_request client0 "GET" "/v1/webhooks" None None) = Returns (PList []) ↔
  ¬ (400 ≤ 399 < 600)%Z ∧ Returns (PList []) = Returns (PList []).
Proof.
  apply (request_returns_iff
    (answer 399 "Unknown" "[]" (Returns (PList [])))
    client0 "GET" "/v1/webhooks" None None
    {| req_method := "GET"; req_url := base_url client0 +:+ "/v1/webhooks";
       req_params := None; req_json := None;
       req_headers := session_headers client0; req_timeout := timeout client0 |}
    {| status_code := 399; reason := "Unknown";
       url := base_url client0 +:+ "/v1/webhooks";
       content := "[]"; json_result := Returns (PList []) |}
    (PList []) eq_refl eq_refl).
Defined.

(** What an error body may look like, under an error status and with a
    non-empty body that decodes to [v]. *)
Lemma finish_error_decoded (r : response) (v : pyvalue) :
  (400 ≤ status_code r < 600)%Z → content r ≠ "" → json_result r = Returns v →
  ∃ str_e, raise_for_status r = Some str_e ∧ str_e ≠ "" ∧
    finish (Returns r) =
      (err ← get v "error" (PDict ∅);
       error_msg ← get err "message" (PStr str_e);
       Raises (MedicamentaError (fstring "API Error: " error_msg))).
Proof.
  intros Hs Hc Hj.
  destruct (raise_for_status_error r Hs) as (str_e & Hr & Hne).
  exists str_e. split_and!; [done..|].
  unfold finish. rewrite Hr. unfold except_HTTPError.
  rewrite bool_decide_eq_true_2 by done. by rewrite Hj.
Qed.

(** The message of an error response is the value under [error.message],
    after the prefix: whatever the error status and whatever the value. *)
Theorem error_message_is_extracted (net : request → result response)
    (client : MedicamentaClient) (op : operation) (req : request) (r : response)
    (d d' : dict) (v : pyvalue) :
  sent net (perform client op) = [req] →
  net req = Returns r →
  (400 ≤ status_code r < 600)%Z →
  content r ≠ "" →
  json_result r = Returns (PDict d) →
  d !! "error" = Some (PDict d') →
  d' !! "message" = Some v →
  run net (perform client op) = Raises (MedicamentaError (fstring "API Error: " v)) ∧
  (∀ m, v = PStr m →
        run net (perform client op) =
          Raises (MedicamentaError (Text ("API Error: " +:+ m)))).
Proof.
  intros Hsent Hnet Hs Hc Hj He Hm.
  destruct (run_perform net client op) as (req' & Hsent' & _ & _ & _ & ->).
  rewrite Hsent' in Hsent. injection Hsent as ->. rewrite Hnet.
  destruct (finish_error_decoded r (PDict d) Hs Hc Hj) as (str_e & _ & _ & ->).
  simpl. rewrite He. simpl. rewrite Hm. simpl.
  split; [done|]. by intros m ->.
Qed.

Lemma error_message_is_extracted_example :
  run (answer 422 "Unprocessable Entity" not_found_body (Returns not_found_json))
      (perform client1 (AdherenceConfirm "p1" "m1" "2024-01-01T08:00:00Z" None None)) =
    Raises (MedicamentaError (fstring "API Error: " (PStr "Patient not found"))) ∧
  (∀ m, PStr "Patient not found" = PStr m →
        run (answer 422 "Unprocessable Entity" not_found_body (Returns not_found_json))
            (perform client1 (AdherenceConfirm "p1" "m1" "2024-01-01T08:00:00Z" None None)) =
          Raises (MedicamentaError (Text ("API Error: " +:+ m)))).
Proof.
  eapply (error_message_is_extracted _ client1 _ _ _
            {[ "error" := PDict {[ "message" := PStr "Patient not found" ]} ]}
            {[ "message" := PStr "Patient not found" ]});
    [reflexivity | reflexivity | simpl; lia | done | reflexivity
    | by vm_compute | by vm_compute].
Defined.

(** An error body that is a JSON object without [error], or whose [error]
    object has no [message], gives the fallback message: the text of the
    HTTP error, which is never empty. *)
Theorem error_body_without_message_falls_back (net : request → result response)
    (client : MedicamentaClient) (op : operation) (req : request) (r : response)
    (d : dict) :
  sent net (perform client op) = [req] →
  net req = Returns r →
  (400 ≤ status_code r < 600)%Z →
  content r ≠ "" →
  json_result r = Returns (PDict d) →
  d !! "error" = None ∨
    (∃ d', d !! "error" = Some (PDict d') ∧ d' !! "message" = None) →
  ∃ str_e, raise_for_status r = Some str_e ∧ str_e ≠ "" ∧
    run net (perform client op) =
      Raises (MedicamentaError (Text ("API Error: " +:+ str_e))).
Proof.
  intros Hsent Hnet Hs Hc Hj Hd.
  destruct (run_perform net client op) as (req' & Hsent' & _ & _ & _ & ->).
  rewrite Hsent' in Hsent. injection Hsent as ->. rewrite Hnet.
  destruct (finish_error_decoded r (PDict d) Hs Hc Hj) as (str_e & Hr & Hne & ->).
  exists str_e. split_and!; [done..|].
  destruct Hd as [He|(d' & He & Hm)]; simpl; rewrite He; simpl.
  - by rewrite lookup_empty.
  - by rewrite Hm.
Qed.

Lemma error_body_without_message_example :
  ∃ str_e,
    raise_for_status {| status_code := 400; reason := "Bad Request";
                        url := base_url client0 +:+ "/v1/webhooks";
                        content := "{}"; json_result := Returns (PDict ∅) |}
      = Some str_e ∧ str_e ≠ "" ∧
    run (answer 400 "Bad Request" "{}" (Returns (PDict ∅)))
        (perform client0 WebhooksList) =
      Raises (MedicamentaError (Text ("API Error: " +:+ str_e))).
Proof.
  eapply (error_body_without_message_falls_back _ client0 WebhooksList _ _ ∅);
    [reflexivity | reflexivity | simpl; lia | done | reflexivity | by left].
Defined.

(** An error body that decodes to something other than an object, or whose
    [error] is not an object, makes the handler raise [AttributeError]:
    the call does not end in a [MedicamentaError]. *)
Theorem error_body_not_object_raises_AttributeError
    (net : request → result response) (client : MedicamentaClient)
    (op : operation) (req : request) (r : response) (v : pyvalue) :
  sent net (perform client op) = [req] →
  net req = Returns r →
  (400 ≤ status_code r < 600)%Z →
  content r ≠ "" →
  json_result r = Returns v →
  not_a_dict v ∨
    (∃ d e, v = PDict d ∧ d !! "error" = Some e ∧ not_a_dict e) →
  run net (perform client op) = Raises AttributeError.
Proof.
  intros Hsent Hnet Hs Hc Hj Hv.
  destruct (run_perform net client op) as (req' & Hsent' & _ & _ & _ & ->).
  rewrite Hsent' in Hsent. injection Hsent as ->. rewrite Hnet.
  destruct (finish_error_decoded r v Hs Hc Hj) as (str_e & _ & _ & ->).
  destruct Hv as [Hv|(d & e & -> & He & Hv)].
  - destruct v; try done. by destruct (Hv d).
  - simpl. rewrite He. simpl. destruct e; try done. by destruct (Hv d0).
Qed.

Lemma error_body_not_object_example :
  run (answer 404 "Not Found"
         ("{" +:+ dq +:+ "error" +:+ dq +:+ ":" +:+ dq +:+ "Patient not found" +:+ dq +:+ "}")
         (Returns (PDict {[ "error" := PStr "Patient not found" ]})))
      (perform client0 (PatientsGet "p1")) = Raises AttributeError.
Proof.
  eapply (error_body_not_object_raises_AttributeError _ client0 (PatientsGet "p1"));
    [reflexivity | reflexivity | simpl; lia | done | reflexivity |].
  right. exists {[ "error" := PStr "Patient not found" ]}, (PStr "Patient not found").
  split; [done|]. split; [by vm_compute|]. by intros d.
Defined.

(** Which exceptions can leave a call that the remote end answered, the
    decoder raising nothing but its [JSONDecodeError]: a
    [MedicamentaError]; or, under an error status with a non-empty body
    only, the decoder's [JSONDecodeError] or an [AttributeError]. *)
Theorem escaping_exceptions (net : request → result response)
    (client : MedicamentaClient) (op : operation) (req : request) (r : response)
    (e : exn) :
  sent net (perform client op) = [req] →
  net req = Returns r →
  (∀ e', json_result r = Raises e' → ∃ m, e' = JSONDecodeError m) →
  run net (perform client op) = Raises e →
  (∃ t, e = MedicamentaError t) ∨
  ((400 ≤ status_code r < 600)%Z ∧ content r ≠ "" ∧
   ((∃ m, e = JSONDecodeError m) ∨ e = AttributeError)).
Proof.
  intros Hsent Hnet Hdec.
  destruct (run_perform net client op) as (req' & Hsent' & _ & _ & _ & ->).
  rewrite Hsent' in Hsent. injection Hsent as ->. rewrite Hnet.
  intros Hrun.
  assert (Hfin : finish (Returns r) = Raises e).
  { destruct (finish (Returns r)); [done|]. exact Hrun. }
  clear Hrun.
  destruct (decide (400 ≤ status_code r < 600)%Z) as [Hs|Hs].
  - destruct (decide (content r = "")) as [Hc|Hc].
    + destruct (finish_error_empty r Hs Hc) as (str_e & _ & _ & Hf).
      rewrite Hf in Hfin. injection Hfin as <-. left. by eexists.
    + destruct (json_result r) as [v|e'] eqn:Hj.
      * destruct (finish_error_decoded r v Hs Hc Hj) as (str_e & _ & _ & Hf).
        rewrite Hf in Hfin. clear Hf.
        destruct v; simpl in Hfin;
          try (injection Hfin as <-; right; by auto).
        destruct (default (PDict ∅) (d !! "error")); simpl in Hfin;
          try (injection Hfin as <-; right; by auto).
        injection Hfin as <-. left. by eexists.
      * rewrite (finish_error_undecodable r e' Hs Hc Hj) in Hfin.
        injection Hfin as <-. right. split; [done|]. split; [done|]. left.
        by apply Hdec.
  - rewrite finish_success in Hfin by done.
    destruct (json_result r) as [v|e'] eqn:Hj; [done|].
    destruct (Hdec e' eq_refl) as [m ->]. simpl in Hfin.
    injection Hfin as <-. left. by eexists.
Qed.

Lemma escaping_exceptions_example :
  (∃ t, JSONDecodeError expecting_value = MedicamentaError t) ∨
  ((400 ≤ 500 < 600)%Z ∧ "Internal Server Error" ≠ "" ∧
   ((∃ m, JSONDecodeError expecting_value = JSONDecodeError m) ∨
    JSONDecodeError expecting_value = AttributeError)).
Proof.
  apply (escaping_exceptions
    (answer 500 "Internal Server Error" "Internal Server Error"
       (Raises (JSONDecodeError expecting_value)))
    client0 ReportsCompliance
    {| req_method := "GET"; req_url := base_url client0 +:+ "/v1/reports/compliance";
       req_params := None; req_json := None;
       req_headers := session_headers client0; req_timeout := timeout client0 |}
    {| status_code := 500; reason := "Internal Server Error";
       url := base_url client0 +:+ "/v1/reports/compliance";
       content := "Internal Server Error";
       json_result := Raises (JSONDecodeError expecting_value) |}
    (JSONDecodeError expecting_value) eq_refl eq_refl).
  - intros e' [= <-]. by eexists.
  - reflexivity.
Defined.

(** The three [delete] operations on a status outside 400..599: [None]
    when the body decodes, whatever it holds; and when it does not decode,
    as with an empty 204 response, a [MedicamentaError]. *)
Theorem delete_outcome (net : request → result response)
    (client : MedicamentaClient) (op : operation) (req : request) (r : response) :
  returns_None op = true →
  sent net (perform client op) = [req] →
  net req = Returns r →
  ¬ (400 ≤ status_code r < 600)%Z →
  (∀ v, json_result r = Returns v → run net (perform client op) = Returns PNone) ∧
  (∀ m, json_result r = Raises (JSONDecodeError m) →
        run net (perform client op) =
          Raises (MedicamentaError (Text ("Request failed: " +:+ m)))).
Proof.
  intros Hop Hsent Hnet Hs.
  destruct (run_perform net client op) as (req' & Hsent' & _ & _ & _ & ->).
  rewrite Hsent' in Hsent. injection Hsent as ->. rewrite Hnet, Hop.
  rewrite finish_success by done.
  split; intros ? ->; reflexivity.
Qed.

Lemma delete_outcome_example :
  run (answer 204 "No Content" "" (Raises (JSONDecodeError expecting_value)))
      (perform client1 (PatientsDelete "p1" true)) =
    Raises (MedicamentaError (Text ("Request failed: " +:+ expecting_value))).
Proof.
  apply (proj2 (delete_outcome
    (answer 204 "No Content" "" (Raises (JSONDecodeError expecting_value)))
    client1 (PatientsDelete "p1" true) (delete_p1 client1)
    {| status_code := 204; reason := "No Content";
       url := base_url client1 +:+ "/v1/patients/p1";
       content := ""; json_result := Raises (JSONDecodeError expecting_value) |}
    eq_refl eq_refl eq_refl ltac:(simpl; lia)) expecting_value eq_refl).
Defined.
